(** * LinkedinTokenStrategy: a shallow embedding of
      lib/passport-linkedin-token-oauth2/strategy.js

    The strategy is callback driven.  A JavaScript function is embedded as a
    function from its argument list to an outcome [M value]: the sequence of
    calls made on the collaborators (host sink, HTTP capability, verify
    callback, skip predicate) together with either the returned value or the
    thrown one.  Callbacks are passed as Rocq functions, so a collaborator may
    call its callback once, never, or several times.

    Conventions of the embedding:
    - a JavaScript value is a [value]; numbers are integers ([Z]) and
      strings are compared and concatenated character by character;
    - an object is the list of its own properties, the first binding of a
      key being the effective one; the keys that the code spells out name
      no member of a prototype, and the one key that it computes (in
      [getLocalizedName]) is read through the prototype chain, which the
      engine supplies ([Inherited]);
    - reading a property of [undefined] or [null] throws a TypeError whose
      message holds the name of the property (the engine's wording is not
      modelled);
    - the engine's coercions of non-primitive values and [JSON.parse] are
      fields of the class [Engine].

    The constructor and [authorizationParams] take no part in a request and
    are not embedded; a configured strategy is a [strategy] record. *)

From Stdlib Require Import String Ascii List ZArith Bool Arith Lia.
Import ListNotations.
Open Scope string_scope.
Set Warnings "-register-all".

(* ================================================================== *)
(** ** JavaScript values *)
(* ================================================================== *)

Inductive value : Type :=
| VUndef
| VNull
| VBool (b : bool)
| VNum (n : Z)
| VStr (s : string)
| VArr (items : list value)
| VObj (fields : list (string * value))
| VError (name message : string) (oauthError : value).

(** ToBoolean. *)
Definition truthy (v : value) : bool :=
  match v with
  | VUndef | VNull => false
  | VBool b => b
  | VNum n => negb (n =? 0)%Z
  | VStr s => negb (s =? "")
  | VArr _ | VObj _ | VError _ _ _ => true
  end.

Definition nullish (v : value) : bool :=
  match v with
  | VUndef | VNull => true
  | _ => false
  end.

(** Own property of an object, by key. *)
Fixpoint lookup_field (k : string) (fs : list (string * value)) : option value :=
  match fs with
  | [] => None
  | (k', v) :: rest => if k' =? k then Some v else lookup_field k rest
  end.

(** [o[k] = v] on the own properties: an existing key keeps its place. *)
Fixpoint set_field (k : string) (v : value) (fs : list (string * value))
  : list (string * value) :=
  match fs with
  | [] => [(k, v)]
  | (k', v') :: rest =>
      if k' =? k then (k, v) :: rest else (k', v') :: set_field k v rest
  end.

Definition digit (c : ascii) : option nat :=
  let n := nat_of_ascii c in
  if ((48 <=? n) && (n <=? 57))%nat then Some (n - 48)%nat else None.

Fixpoint digits (s : string) (acc : nat) : option nat :=
  match s with
  | EmptyString => Some acc
  | String c rest =>
      match digit c with
      | Some d => digits rest (10 * acc + d)%nat
      | None => None
      end
  end.

(** A canonical array index: decimal digits without a leading zero. *)
Definition index_of_key (k : string) : option nat :=
  match k with
  | EmptyString => None
  | String c rest =>
      if (c =? "0")%char
      then match rest with EmptyString => Some 0 | _ => None end
      else digits k 0
  end.

(** The value of [v[k]] for a [v] that is neither [undefined] nor [null]. *)
Definition get_field (v : value) (k : string) : value :=
  match v with
  | VObj fs =>
      match lookup_field k fs with Some x => x | None => VUndef end
  | VArr l =>
      if k =? "length" then VNum (Z.of_nat (List.length l))
      else match index_of_key k with
           | Some i => nth i l VUndef
           | None => VUndef
           end
  | VStr s =>
      if k =? "length" then VNum (Z.of_nat (String.length s))
      else match index_of_key k with
           | Some i =>
               match String.get i s with
               | Some c => VStr (String c EmptyString)
               | None => VUndef
               end
           | None => VUndef
           end
  | VError n m c =>
      if k =? "name" then VStr n
      else if k =? "message" then VStr m
      else if k =? "oauthError" then c
      else VUndef
  | _ => VUndef
  end.

(** The own property of [v] under the key [k], if there is one. *)
Definition own_field (v : value) (k : string) : option value :=
  match v with
  | VObj fs => lookup_field k fs
  | VArr l =>
      if k =? "length" then Some (VNum (Z.of_nat (List.length l)))
      else match index_of_key k with
           | Some i => nth_error l i
           | None => None
           end
  | VStr s =>
      if k =? "length" then Some (VNum (Z.of_nat (String.length s)))
      else match index_of_key k with
           | Some i =>
               match String.get i s with
               | Some c => Some (VStr (String c EmptyString))
               | None => None
               end
           | None => None
           end
  | VError n m c =>
      if k =? "name" then Some (VStr n)
      else if k =? "message" then Some (VStr m)
      else if k =? "oauthError" then Some c
      else None
  | _ => None
  end.

(** The result of evaluating an expression: a value or a thrown value. *)
Inductive Run (A : Type) : Type :=
| Ok (a : A)
| Throw (e : value).
Arguments Ok {A} a.
Arguments Throw {A} e.

Definition rbind {A B : Type} (r : Run A) (f : A -> Run B) : Run B :=
  match r with
  | Ok a => f a
  | Throw e => Throw e
  end.

Declare Scope run_scope.
Delimit Scope run_scope with run.
Notation "x <- r ;; k" := (rbind r (fun x => k))
  (at level 61, r at next level, right associativity) : run_scope.

Definition TypeError (reading : string) : value :=
  VError "TypeError" reading VUndef.

Definition SyntaxError : value :=
  VError "SyntaxError" "" VUndef.

(** Property read [v.k] / [v[k]]. *)
Definition prop (v : value) (k : string) : Run value :=
  if nullish v then Throw (TypeError k) else Ok (get_field v k).

(** [a && b] and [a || b]: the right operand is evaluated only when the
    left one does not decide. *)
Definition js_and (a b : Run value) : Run value :=
  rbind a (fun v => if truthy v then b else Ok v).

Definition js_or (a b : Run value) : Run value :=
  rbind a (fun v => if truthy v then Ok v else b).

(** Modelled from the spec: the error wrapper [InternalOAuthError] of
    passport-oauth is not part of this repository; the spec describes it as
    wrapping a stage-identifying message and the provider-specific cause. *)
Definition InternalOAuthError (message : string) (err : value) : value :=
  VError "InternalOAuthError" message err.

(** The builtins of the engine that the code relies on. *)
Class Engine : Type := {
  (** [JSON.parse(body)]; [None] when it throws a SyntaxError. *)
  JSON_parse : value -> option value;
  (** String conversion of a value that is not a string, as performed by
      [+] with a string operand. *)
  ToString : value -> Run string;
  (** [v > 0] for a [v] that is a string, an array or an object. *)
  ToNumber_gt0 : value -> Run bool;
  (** The member that [v] inherits from its prototype chain under a key
      that is no own property of [v] (for an object, [Object.prototype]
      itself under [__proto__]); [None] when the chain has none. *)
  Inherited : value -> string -> option value
}.

Section WithEngine.
Context {engine : Engine}.

Definition str_of (v : value) : Run string :=
  match v with
  | VStr s => Ok s
  | _ => ToString v
  end.

(** [v > 0] *)
Definition gt0 (v : value) : Run bool :=
  match v with
  | VNum n => Ok (0 <? n)%Z
  | VBool b => Ok b
  | VUndef | VNull => Ok false
  | _ => ToNumber_gt0 v
  end.

Definition parse (body : value) : Run value :=
  match JSON_parse body with
  | Some v => Ok v
  | None => Throw SyntaxError
  end.

(** The value of [v[k]] for a computed key [k]: the own property, else the
    inherited member, else [undefined]. *)
Definition member (v : value) (k : string) : value :=
  match own_field v k with
  | Some x => x
  | None =>
      match Inherited v k with
      | Some x => x
      | None => VUndef
      end
  end.

(** Property read [v[k]] with a computed key. *)
Definition prop_computed (v : value) (k : string) : Run value :=
  if nullish v then Throw (TypeError k) else Ok (member v k).

(* ================================================================== *)
(** ** The normalizer: getLocalizedName, addEmails, addPhotos *)
(* ================================================================== *)

Local Open Scope run_scope.

(** [name.localized[name.preferredLocale.language + '_' +
     name.preferredLocale.country]] *)
Definition getLocalizedName (name : value) : Run value :=
  localized <- prop name "localized" ;;
  locale <- prop name "preferredLocale" ;;
  language <- prop locale "language" ;;
  l <- str_of language ;;
  locale' <- prop name "preferredLocale" ;;
  country <- prop locale' "country" ;;
  c <- str_of country ;;
  prop_computed localized (l ++ "_" ++ c).

(** [arr.reduce(fn, init)]: defined on arrays only; any other value has no
    callable [reduce]. *)
Fixpoint reduce_list (fn : list value -> value -> Run (list value))
  (l : list value) (memo : list value) : Run (list value) :=
  match l with
  | [] => Ok memo
  | el :: rest => memo' <- fn memo el ;; reduce_list fn rest memo'
  end.

Definition reduce (arr : value) (fn : list value -> value -> Run (list value))
  (init : list value) : Run value :=
  match arr with
  | VArr l => out <- reduce_list fn l init ;; Ok (VArr out)
  | _ => Throw (TypeError "reduce")
  end.

Definition addEmails_step (memo : list value) (el : value) : Run (list value) :=
  c <- js_and (prop el "handle~")
              (h <- prop el "handle~" ;; prop h "emailAddress") ;;
  if truthy c then
    h <- prop el "handle~" ;;
    address <- prop h "emailAddress" ;;
    Ok (memo ++ [VObj [("value", address)]])%list
  else Ok memo.

Definition addEmails (profile : list (string * value)) (emailJson : value)
  : Run (list (string * value)) :=
  elements <- prop emailJson "elements" ;;
  if truthy elements then
    elements' <- prop emailJson "elements" ;;
    emails <- reduce elements' addEmails_step [] ;;
    Ok (set_field "emails" emails profile)
  else Ok profile.

Definition addPhotos_step (memo : list value) (el : value) : Run (list value) :=
  c <- js_and (js_and (Ok el) (prop el "identifiers"))
              (ids <- prop el "identifiers" ;;
               len <- prop ids "length" ;;
               b <- gt0 len ;; Ok (VBool b)) ;;
  if truthy c then
    ids <- prop el "identifiers" ;;
    first <- prop ids "0" ;;
    identifier <- prop first "identifier" ;;
    Ok (memo ++ [VObj [("value", identifier)]])%list
  else Ok memo.

Definition addPhotos (profile : list (string * value)) (profileJson : value)
  : Run (list (string * value)) :=
  c <- js_and
         (js_and
            (js_and (prop profileJson "profilePicture")
                    (p <- prop profileJson "profilePicture" ;;
                     prop p "displayImage~"))
            (p <- prop profileJson "profilePicture" ;;
             d <- prop p "displayImage~" ;;
             prop d "elements"))
         (p <- prop profileJson "profilePicture" ;;
          d <- prop p "displayImage~" ;;
          els <- prop d "elements" ;;
          len <- prop els "length" ;;
          b <- gt0 len ;; Ok (VBool b)) ;;
  if truthy c then
    p <- prop profileJson "profilePicture" ;;
    d <- prop p "displayImage~" ;;
    els <- prop d "elements" ;;
    photos <- reduce els addPhotos_step [] ;;
    Ok (set_field "photos" photos profile)
  else Ok profile.

(** The body of the [try] block of [userProfile], up to the call of
    [done]. *)
Definition build_profile (profileBody emailBody : value) : Run value :=
  profileJson <- parse profileBody ;;
  emailJson <- parse emailBody ;;
  let profile := [("provider", VStr "linkedin")] in
  id <- prop profileJson "id" ;;
  let profile := set_field "id" id profile in
  lastName <- prop profileJson "lastName" ;;
  familyName <- getLocalizedName lastName ;;
  firstName <- prop profileJson "firstName" ;;
  givenName <- getLocalizedName firstName ;;
  let profile :=
    set_field "name"
      (VObj [("familyName", familyName); ("givenName", givenName)]) profile in
  g <- str_of givenName ;;
  f <- str_of familyName ;;
  let profile := set_field "displayName" (VStr (g ++ " " ++ f)) profile in
  profile <- addEmails profile emailJson ;;
  profile <- addPhotos profile profileJson ;;
  let profile := set_field "_raw" profileBody profile in
  let profile := set_field "_json" profileJson profile in
  Ok (VObj profile).

End WithEngine.

(* ================================================================== *)
(** ** Calls on collaborators *)
(* ================================================================== *)

(** The request, as far as the strategy reads it.  A member that the
    request lacks is [VUndef]. *)
Record request : Type := {
  body : value;
  query : value;
  headers : value
}.

(** What the strategy does to the outside: one event per call. *)
Inductive Event : Type :=
| SinkFail (args : list value)
| SinkError (args : list value)
| SinkSuccess (args : list value)
| SetAccessTokenName (args : list value)
| HttpGet (url token : value)
| SkipPredicate (args : list value)
| VerifyCall (req : option request) (accessToken refreshToken profile : value).

(** Outcome of running a function: the calls made, in order, and the
    returned or thrown value. *)
Definition M (A : Type) : Type := (list Event * Run A)%type.

Definition ret {A : Type} (a : A) : M A := ([], Ok a).

Definition bind {A B : Type} (m : M A) (f : A -> M B) : M B :=
  match m with
  | (t, Ok a) => let '(t', r) := f a in ((t ++ t')%list, r)
  | (t, Throw e) => (t, Throw e)
  end.

Definition emit (e : Event) : M unit := ([e], Ok tt).

Definition lift {A : Type} (r : Run A) : M A := ([], r).

(** [try { m } catch (e) { h e }] *)
Definition try_catch {A : Type} (m : M A) (h : value -> M A) : M A :=
  match m with
  | (t, Throw e) => let '(t', r) := h e in ((t ++ t')%list, r)
  | (t, Ok a) => (t, Ok a)
  end.

Definition trace {A : Type} (m : M A) : list Event := fst m.
Definition result {A : Type} (m : M A) : Run A := snd m.

Declare Scope eff_scope.
Delimit Scope eff_scope with eff.
Notation "x <- m ;; k" := (bind m (fun x => k))
  (at level 61, m at next level, right associativity) : eff_scope.
Notation "' pat <- m ;; k" := (bind m (fun x => match x with pat => k end))
  (at level 61, pat pattern, m at next level, right associativity) : eff_scope.

(** An argument of a call: a value, the request object, or a callback. *)
Inductive jsarg : Type :=
| AVal (v : value)
| AReq (r : request)
| ACb (k : list value -> M value).

(** A function supplied from outside. *)
Definition jsfun : Type := list jsarg -> M value.

(** A parameter that the caller did not pass is [undefined]. *)
Definition arg (i : nat) (args : list value) : value := nth i args VUndef.

(** [this._skipUserProfile]: [typeof] tells a function, with its [length],
    from any other value. *)
Inductive skip_setting : Type :=
| SkipValue (v : value)
| SkipFunction (length : nat) (f : jsfun).

Record oauth2 : Type := {
  setAccessTokenName : jsfun;
  get : jsfun
}.

Record strategy : Type := {
  _passReqToCallback : value;
  _verify : jsfun;
  _oauth2 : oauth2;
  _skipUserProfile : skip_setting;
  profileUrl : value;
  emailUrl : value
}.

Definition is_sink (e : Event) : bool :=
  match e with
  | SinkFail _ | SinkError _ | SinkSuccess _ => true
  | _ => false
  end.

Definition is_http (e : Event) : bool :=
  match e with
  | HttpGet _ _ => true
  | _ => false
  end.

Definition sink_calls (t : list Event) : list Event := filter is_sink t.
Definition http_calls (t : list Event) : list Event := filter is_http t.

(* ================================================================== *)
(** ** The strategy *)
(* ================================================================== *)

Section Strategy.
Context {engine : Engine}.
Local Open Scope eff_scope.

(** The sink of the host pipeline: [self.fail], [self.error],
    [self.success]. *)
Definition self_fail (args : list value) : M value :=
  _ <- emit (SinkFail args) ;; ret VUndef.
Definition self_error (args : list value) : M value :=
  _ <- emit (SinkError args) ;; ret VUndef.
Definition self_success (args : list value) : M value :=
  _ <- emit (SinkSuccess args) ;; ret VUndef.

Definition call_get (self : strategy) (url token : value)
  (cb : list value -> M value) : M value :=
  _ <- emit (HttpGet url token) ;;
  get (_oauth2 self) [AVal url; AVal token; ACb cb].

(** Callback of the email GET. *)
Definition userProfile_email (done : list value -> M value)
  (profileBody : value) (args : list value) : M value :=
  let emailErr := arg 0 args in
  let emailBody := arg 1 args in
  if truthy emailErr then
    done [InternalOAuthError "failed to fetch user email" emailErr]
  else
    _ <- try_catch
           (profile <- lift (build_profile profileBody emailBody) ;;
            done [VNull; profile])
           (fun e => done [e]) ;;
    ret VUndef.

(** Callback of the profile GET. *)
Definition userProfile_profile (self : strategy) (accessToken : value)
  (done : list value -> M value) (args : list value) : M value :=
  let profileErr := arg 0 args in
  let profileBody := arg 1 args in
  if truthy profileErr then
    done [InternalOAuthError "failed to fetch user profile" profileErr]
  else
    _ <- call_get self (emailUrl self) accessToken
           (userProfile_email done profileBody) ;;
    ret VUndef.

Definition userProfile (self : strategy) (accessToken : value)
  (done : list value -> M value) : M value :=
  _ <- emit (SetAccessTokenName [VStr "oauth2_access_token"]) ;;
  _ <- setAccessTokenName (_oauth2 self) [AVal (VStr "oauth2_access_token")] ;;
  _ <- call_get self (profileUrl self) accessToken
         (userProfile_profile self accessToken done) ;;
  ret VUndef.

Definition loadIt (self : strategy) (accessToken : value)
  (done : list value -> M value) : M value :=
  userProfile self accessToken done.

Definition skipIt (done : list value -> M value) : M value :=
  done [VNull].

(** Callback handed to an asynchronous skip predicate. *)
Definition loadUserProfile_async (self : strategy) (accessToken : value)
  (done : list value -> M value) (args : list value) : M value :=
  let err := arg 0 args in
  let skip := arg 1 args in
  if truthy err then done [err]
  else if negb (truthy skip) then loadIt self accessToken done
  else skipIt done.

Definition _loadUserProfile (self : strategy) (accessToken : value)
  (done : list value -> M value) : M value :=
  match _skipUserProfile self with
  | SkipFunction length f =>
      if (1 <? length)%nat then
        _ <- emit (SkipPredicate [accessToken]) ;;
        _ <- f [AVal accessToken;
                ACb (loadUserProfile_async self accessToken done)] ;;
        ret VUndef
      else
        _ <- emit (SkipPredicate []) ;;
        skip <- f [] ;;
        if negb (truthy skip) then loadIt self accessToken done
        else skipIt done
  | SkipValue v =>
      if negb (truthy v) then loadIt self accessToken done
      else skipIt done
  end.

Definition verified (args : list value) : M value :=
  let err := arg 0 args in
  let user := arg 1 args in
  let info := arg 2 args in
  if truthy err then self_error [err]
  else if negb (truthy user) then self_fail [info]
  else _ <- self_success [user; info] ;; ret VUndef.

(** Callback handed by [authenticate] to [_loadUserProfile]. *)
Definition authenticate_loaded (self : strategy) (req : request)
  (accessToken refreshToken : value) (args : list value) : M value :=
  let err := arg 0 args in
  let profile := arg 1 args in
  if truthy err then self_fail [err]
  else if truthy (_passReqToCallback self) then
    _ <- emit (VerifyCall (Some req) accessToken refreshToken profile) ;;
    _ <- _verify self [AReq req; AVal accessToken; AVal refreshToken;
                       AVal profile; ACb verified] ;;
    ret VUndef
  else
    _ <- emit (VerifyCall None accessToken refreshToken profile) ;;
    _ <- _verify self [AVal accessToken; AVal refreshToken;
                       AVal profile; ACb verified] ;;
    ret VUndef.

(** [fromBody || req.query[k] || req.headers[k]]: the right-hand side of
    lines 84 and 85. *)
Definition select_token (fromBody : value) (req : request) (k : string)
  : Run value :=
  js_or (js_or (Ok fromBody) (prop (query req) k)) (prop (headers req) k).

(** Lines 78 to 85: the tokens, body first, then query, then headers. *)
Definition extract_tokens (req : request) : Run (value * value) :=
  (fromBody <-
     (if truthy (body req) then
        a <- prop (body req) "access_token" ;;
        r <- prop (body req) "refresh_token" ;;
        Ok (a, r)
      else Ok (VUndef, VUndef)) ;;
   accessToken <- select_token (fst fromBody) req "access_token" ;;
   refreshToken <- select_token (snd fromBody) req "refresh_token" ;;
   Ok (accessToken, refreshToken))%run.

Definition authenticate (self : strategy) (req : request) (options : value)
  : M value :=
  denied <- lift (js_and (Ok (query req)) (prop (query req) "error")) ;;
  if truthy denied then self_fail []
  else
    tokens <- lift (extract_tokens req) ;;
    let accessToken := fst tokens in
    let refreshToken := snd tokens in
    if negb (truthy accessToken) then self_fail []
    else
      _ <- _loadUserProfile self accessToken
             (authenticate_loaded self req accessToken refreshToken) ;;
      ret VUndef.

End Strategy.

(* ================================================================== *)
(** ** Vocabulary of the statements *)
(* ================================================================== *)

(** The value that the body tier contributes for a field: lines 79 to 82. *)
Definition from_body (req : request) (k : string) : value :=
  if truthy (body req) then get_field (body req) k else VUndef.

(** The request exposes the provider's error indicator: line 73. *)
Definition denied (req : request) : bool :=
  truthy (query req) && truthy (get_field (query req) "error").

(** The first of two tiers that holds a truthy value, the second tier
    otherwise. *)
Definition first_of_two (b q : value) : value :=
  if truthy b then b else q.

(** The first of three tiers that holds a truthy value, the last tier
    otherwise. *)
Definition first_tier (b q h : value) : value :=
  if truthy b then b else if truthy q then q else h.

(** A collaborator that, given a callback as last argument, calls it exactly
    once, synchronously, and does nothing else that the strategy can see. *)
Definition calls_back_once (f : jsfun) : Prop :=
  forall pre : list jsarg, exists reply : list value,
    forall cb : list value -> M value, f (pre ++ [ACb cb])%list = cb reply.

(** A collaborator that returns a value and calls nothing. *)
Definition returns_value (f : jsfun) : Prop :=
  forall args : list jsarg, exists v : value, f args = ret v.

Definition skip_well_behaved (s : skip_setting) : Prop :=
  match s with
  | SkipValue _ => True
  | SkipFunction length f =>
      if (1 <? length)%nat then calls_back_once f else returns_value f
  end.

Definition well_behaved (self : strategy) : Prop :=
  calls_back_once (_verify self) /\
  calls_back_once (get (_oauth2 self)) /\
  returns_value (setAccessTokenName (_oauth2 self)) /\
  skip_well_behaved (_skipUserProfile self).

(** The run makes exactly one sink call and returns. *)
Definition once (m : M value) : Prop :=
  exists (ev : Event) (v : value),
    sink_calls (trace m) = [ev] /\ result m = Ok v.

(** The address of an element of the email document, when the element
    carries a resolved handle with a truthy address. *)
Definition usable_address (el : value) : list value :=
  let handle := get_field el "handle~" in
  let address := get_field handle "emailAddress" in
  if truthy handle && truthy address then [VObj [("value", address)]] else [].

Definition usable_addresses (elements : list value) : list value :=
  flat_map usable_address elements.

(** The entry that an image element contributes to [photos]: the first of
    its identifiers. *)
Definition first_identifier (el : value) : list value :=
  match get_field el "identifiers" with
  | VArr (first :: _) => [VObj [("value", get_field first "identifier")]]
  | _ => []
  end.

Definition first_identifiers (elements : list value) : list value :=
  flat_map first_identifier elements.

(** An image element as the provider sends it: its [identifiers], when
    there are any, are an array of objects. *)
Definition image_element_ok (el : value) : bool :=
  negb (truthy el) ||
  match get_field el "identifiers" with
  | VArr [] => true
  | VArr (first :: _) => negb (nullish first)
  | ids => negb (truthy ids)
  end.

(** The elements of the resolved picture of a profile document. *)
Definition picture_elements (profileJson : value) : value :=
  get_field
    (get_field (get_field profileJson "profilePicture") "displayImage~")
    "elements".

(** [photos] as the specification words it: every identifier entry of the
    first image element, and no field at all without a first element. *)
Definition photos_spec (profileJson : value) : option (list value) :=
  match picture_elements profileJson with
  | VArr (first :: _) =>
      match get_field first "identifiers" with
      | VArr ids =>
          Some (map (fun i => VObj [("value", get_field i "identifier")]) ids)
      | _ => Some []
      end
  | _ => None
  end.

Definition addPhotos_spec (profile : list (string * value))
  (profileJson : value) : list (string * value) :=
  match photos_spec profileJson with
  | Some photos => set_field "photos" (VArr photos) profile
  | None => profile
  end.

(* ================================================================== *)
(** ** Fixtures: a stub engine, stub collaborators, sample documents *)
(* ================================================================== *)

Definition stub_ToString (v : value) : Run string :=
  match v with
  | VUndef => Ok "undefined"
  | VNull => Ok "null"
  | VBool true => Ok "true"
  | VBool false => Ok "false"
  | _ => Ok "[object Object]"
  end.

(** A prototype chain that holds [__proto__] only, an empty object standing
    for the prototype. *)
Definition stub_Inherited (v : value) (k : string) : option value :=
  if k =? "__proto__" then Some (VObj []) else None.

(** An engine whose [JSON.parse] knows the listed bodies only. *)
Definition stub_engine (documents : list (string * value)) : Engine := {|
  JSON_parse := fun b =>
    match b with
    | VStr s => lookup_field s documents
    | _ => None
    end;
  ToString := stub_ToString;
  ToNumber_gt0 := fun _ => Ok false;
  Inherited := stub_Inherited
|}.

Fixpoint last_callback (args : list jsarg) : option (list value -> M value) :=
  match args with
  | [] => None
  | a :: rest =>
      match rest with
      | [] => match a with ACb k => Some k | _ => None end
      | _ => last_callback rest
      end
  end.

(** The collaborator that answers its callback once with [reply], computed
    from the other arguments. *)
Definition answer (reply : list jsarg -> list value) : jsfun :=
  fun args =>
    match last_callback args with
    | Some k => k (reply (removelast args))
    | None => ret VUndef
    end.

Definition returning (v : value) : jsfun := fun _ => ret v.

Definition localized_name (s : string) : value :=
  VObj [("localized", VObj [("en_US", VStr s)]);
        ("preferredLocale",
         VObj [("country", VStr "US"); ("language", VStr "en")])].

Definition tina_profile : value :=
  VObj [("id", VStr "42");
        ("firstName", localized_name "Tina");
        ("lastName", localized_name "Belcher")].

Definition tina_email : value :=
  VObj [("elements",
         VArr [VObj [("handle~",
                      VObj [("emailAddress", VStr "tina@example.com")])]])].

Definition tina_documents : list (string * value) :=
  [("profile-body", tina_profile); ("email-body", tina_email)].

Definition tina_engine : Engine := stub_engine tina_documents.

(** An HTTP capability that answers the profile URL with [profile] and any
    other URL with [email], each a triple [err; body; response]. *)
Definition stub_get (profile email : list value) : jsfun :=
  answer (fun pre =>
            match pre with
            | AVal (VStr "profile-url") :: _ => profile
            | _ => email
            end).

Definition stub_oauth2 (profile email : list value) : oauth2 := {|
  setAccessTokenName := returning VUndef;
  get := stub_get profile email
|}.

Definition the_user : value := VObj [("uid", VNum 1)].

(** A verify callback that accepts [the_user]. *)
Definition accepting : jsfun := answer (fun _ => [VNull; the_user]).

(** A verify callback that never answers, and one that answers twice. *)
Definition silent_verify : jsfun := fun _ => ret VUndef.

Definition eager_verify : jsfun :=
  fun args =>
    match last_callback args with
    | Some k => bind (k [VNull; the_user]) (fun _ => k [VNull; the_user])
    | None => ret VUndef
    end.

Definition with_verify (verify : jsfun) (self : strategy) : strategy := {|
  _passReqToCallback := _passReqToCallback self;
  _verify := verify;
  _oauth2 := _oauth2 self;
  _skipUserProfile := _skipUserProfile self;
  profileUrl := profileUrl self;
  emailUrl := emailUrl self
|}.

Definition stub_strategy (skip : skip_setting) (profile email : list value)
  : strategy := {|
  _passReqToCallback := VUndef;
  _verify := accepting;
  _oauth2 := stub_oauth2 profile email;
  _skipUserProfile := skip;
  profileUrl := VStr "profile-url";
  emailUrl := VStr "email-url"
|}.

(** Both GETs succeed with Tina's documents. *)
Definition tina_strategy : strategy :=
  stub_strategy (SkipValue (VBool false))
    [VNull; VStr "profile-body"] [VNull; VStr "email-body"].

(** The profile GET fails with a transport error. *)
Definition transport_failure : value := VObj [("statusCode", VNum 500)].

Definition failing_strategy : strategy :=
  stub_strategy (SkipValue (VBool false))
    [transport_failure] [VNull; VStr "email-body"].

(** The profile GET succeeds, the email GET fails. *)
Definition email_failing_strategy : strategy :=
  stub_strategy (SkipValue (VBool false))
    [VNull; VStr "profile-body"] [transport_failure].

(** The profile GET answers a body that is no JSON document. *)
Definition garbled_strategy : strategy :=
  stub_strategy (SkipValue (VBool false))
    [VNull; VStr "garbled"] [VNull; VStr "email-body"].

(** [skipUserProfile: function (token, cb) { cb('gate down'); }] *)
Definition gate_error_strategy : strategy :=
  stub_strategy (SkipFunction 2 (answer (fun _ => [VStr "gate down"])))
    [VNull; VStr "profile-body"] [VNull; VStr "email-body"].

(** [skipUserProfile: function (token, cb) { cb(null, true); }] *)
Definition async_skipping_strategy : strategy :=
  stub_strategy (SkipFunction 2 (answer (fun _ => [VNull; VBool true])))
    [VNull; VStr "profile-body"] [VNull; VStr "email-body"].

(** [skipUserProfile: true] *)
Definition skipping_strategy : strategy :=
  stub_strategy (SkipValue (VBool true))
    [VNull; VStr "profile-body"] [VNull; VStr "email-body"].

(** [skipUserProfile: function (token) { return token === 'tok123'; }] *)
Definition token_predicate : jsfun :=
  fun args =>
    match args with
    | AVal (VStr "tok123") :: _ => ret (VBool true)
    | _ => ret (VBool false)
    end.

Definition predicate_strategy : strategy :=
  stub_strategy (SkipFunction 1 token_predicate)
    [VNull; VStr "profile-body"] [VNull; VStr "email-body"].

Definition query_request (token : string) : request := {|
  body := VUndef;
  query := VObj [("access_token", VStr token)];
  headers := VObj []
|}.

(** A request with the error indicator next to a token. *)
Definition denied_request : request := {|
  body := VObj [("access_token", VStr "tok123")];
  query := VObj [("error", VStr "access_denied")];
  headers := VObj []
|}.

(** A request with query and headers, and no token anywhere. *)
Definition tokenless_request : request := {|
  body := VUndef; query := VObj []; headers := VObj []
|}.

(** A request without body, query and headers. *)
Definition bare_request : request := {|
  body := VUndef; query := VUndef; headers := VUndef
|}.

(** A request whose body carries both tokens and that has neither a query
    nor headers. *)
Definition body_only_request : request := {|
  body := VObj [("access_token", VStr "a"); ("refresh_token", VStr "r")];
  query := VUndef;
  headers := VUndef
|}.

(** The same without the refresh token. *)
Definition access_only_request : request := {|
  body := VObj [("access_token", VStr "a")];
  query := VUndef;
  headers := VUndef
|}.

(** Different tokens in body, query and headers. *)
Definition three_tier_request : request := {|
  body := VObj [("access_token", VStr "b-at"); ("refresh_token", VStr "b-rt")];
  query := VObj [("access_token", VStr "q-at"); ("refresh_token", VStr "q-rt")];
  headers := VObj [("access_token", VStr "h-at"); ("refresh_token", VStr "h-rt")]
|}.

(** An email document without the [elements] key. *)
Definition empty_email : value := VObj [].

(** An email document whose entries carry no usable address. *)
Definition unusable_email : value :=
  VObj [("elements",
         VArr [VObj [("handle", VStr "urn:li:emailAddress:1")];
               VObj [("handle~", VObj [("emailAddress", VStr "")])]])].

(** An email document with two usable addresses around an unusable entry. *)
Definition two_address_email : value :=
  VObj [("elements",
         VArr [VObj [("handle~", VObj [("emailAddress", VStr "first@example.com")])];
               VObj [("handle", VStr "urn:li:emailAddress:2")];
               VObj [("handle~", VObj [("emailAddress", VStr "second@example.com")])]])].

(** A callback that records nothing and returns. *)
Definition quiet_done : list value -> M value := fun _ => ret VUndef.

(** A name whose mapping lacks the key of its preferred locale. *)
Definition unmapped_name : value :=
  VObj [("localized", VObj [("fr_FR", VStr "Tina")]);
        ("preferredLocale",
         VObj [("country", VStr "US"); ("language", VStr "en")])].

Definition identifier_entry (s : string) : value :=
  VObj [("identifier", VStr s)].

(** A picture with two image elements, the first with two identifiers. *)
Definition two_image_profile : value :=
  VObj [("profilePicture",
         VObj [("displayImage~",
                VObj [("elements",
                       VArr [VObj [("identifiers",
                                    VArr [identifier_entry "a";
                                          identifier_entry "b"])];
                             VObj [("identifiers",
                                    VArr [identifier_entry "c"])]])])])].

(** The profile that Tina's two documents normalize to. *)
Definition tina_normalized_profile : value :=
  VObj [("provider", VStr "linkedin"); ("id", VStr "42");
        ("name", VObj [("familyName", VStr "Belcher");
                       ("givenName", VStr "Tina")]);
        ("displayName", VStr "Tina Belcher");
        ("emails", VArr [VObj [("value", VStr "tina@example.com")]]);
        ("_raw", VStr "profile-body");
        ("_json", tina_profile)].

(** An exception, and collaborators that throw it. *)
Definition boom : value := VError "Error" "boom" VUndef.

Definition throwing : jsfun := fun _ => ([], Throw boom).

(** A verify callback that accepts [the_user] and then throws. *)
Definition accepting_then_throwing : jsfun :=
  fun args =>
    match last_callback args with
    | Some k => bind (k [VNull; the_user]) (fun _ => throwing [])
    | None => ret VUndef
    end.

(** A request whose only token is in the headers and that has no query. *)
Definition header_only_request : request := {|
  body := VUndef;
  query := VUndef;
  headers := VObj [("access_token", VStr "h-at")]
|}.

(** A request with an empty body and empty headers, and no query. *)
Definition queryless_request : request := {|
  body := VObj []; query := VUndef; headers := VObj []
|}.

(** An email document whose only entry is [null]. *)
Definition null_only_email : value := VObj [("elements", VArr [VNull])].

(** A name whose locale spells the key [__proto__]. *)
Definition proto_name : value :=
  VObj [("localized", VObj [("en_US", VStr "Tina")]);
        ("preferredLocale",
         VObj [("country", VStr "proto__"); ("language", VStr "_")])].

(** Bodies that parse to sparse profile documents. *)
Definition sparse_documents : list (string * value) :=
  [("null-body", VNull);
   ("nameless-body", VObj [("id", VStr "42")]);
   ("first-nameless-body",
    VObj [("id", VStr "42"); ("lastName", localized_name "Belcher")]);
   ("email-body", tina_email)].

Definition sparse_engine : Engine := stub_engine sparse_documents.

(** A picture whose image elements carry no identifier. *)
Definition blank_image_profile : value :=
  VObj [("profilePicture",
         VObj [("displayImage~",
                VObj [("elements",
                       VArr [VNull; VObj [("identifiers", VArr [])];
                             VObj [("artifact", VStr "urn:li:image")]])])])].

(** An email document whose second entry is [null]. *)
Definition null_entry_email : value :=
  VObj [("elements",
         VArr [VObj [("handle~", VObj [("emailAddress", VStr "a@example.com")])];
               VNull;
               VObj [("handle~", VObj [("emailAddress", VStr "b@example.com")])]])].

(** Options as a caller may give them: no authorization URL, a token URL of
    their own, an empty separator. *)
Definition caller_options : list (string * value) :=
  [("clientID", VStr "123-456-789");
   ("tokenURL", VStr "https://example.com/token");
   ("scopeSeparator", VStr "")].

(* ================================================================== *)
(** ** The constructor's settings and authorizationParams *)
(* ================================================================== *)

(** [v || d] *)
Definition or_default (v d : value) : value :=
  if truthy v then v else d.

(** [options.k = options.k || d] *)
Definition default_option (k : string) (d : string)
  (options : list (string * value)) : list (string * value) :=
  set_field k (or_default (get_field (VObj options) k) (VStr d)) options.

(** Lines 44 to 47 of the constructor: the options object as it is handed
    to the base constructor.  [options] holds the properties of the
    caller's object, [None] standing for an omitted (falsy) argument. *)
Definition LinkedinTokenStrategy_options
  (options : option (list (string * value))) : list (string * value) :=
  let options := match options with Some o => o | None => [] end in
  let options :=
    default_option "authorizationURL" "https://www.linkedin.com" options in
  let options :=
    default_option "tokenURL"
      "https://www.linkedin.com/uas/oauth2/accessToken" options in
  default_option "scopeSeparator" "," options.

(** Lines 114 to 123. *)
Definition authorizationParams (options : value) : Run value :=
  (let params := [] in
   state <- prop options "state" ;;
   if truthy state then
     state' <- prop options "state" ;;
     Ok (VObj (set_field "state" state' params))
   else Ok (VObj params))%run.

(* ================================================================== *)
(** ** Vocabulary of the further statements *)
(* ================================================================== *)

(** The sink call that [verified] makes for an answer [err, user, info] of
    the verify callback. *)
Definition verdict (reply : list value) : Event :=
  if truthy (arg 0 reply) then SinkError [arg 0 reply]
  else if truthy (arg 1 reply) then SinkSuccess [arg 1 reply; arg 2 reply]
  else SinkFail [arg 2 reply].

(** The arguments of the call of the verify callback: lines 106 to 110. *)
Definition verify_arguments (self : strategy) (req : request)
  (accessToken refreshToken profile : value) (cb : list value -> M value)
  : list jsarg :=
  if truthy (_passReqToCallback self) then
    [AReq req; AVal accessToken; AVal refreshToken; AVal profile; ACb cb]
  else [AVal accessToken; AVal refreshToken; AVal profile; ACb cb].

(** The request that the verify callback is given, if any. *)
Definition passed_request (self : strategy) (req : request) : option request :=
  if truthy (_passReqToCallback self) then Some req else None.

(** What the gate does before it decides: nothing, or the call of the
    synchronous or of the asynchronous predicate. *)
Definition gate_prefix (accessToken : value) (g : list Event) : Prop :=
  g = [] \/ g = [SkipPredicate []] \/ g = [SkipPredicate [accessToken]].

(** What the fetch does before it calls [done]: nothing when the profile is
    skipped, otherwise the naming of the token and one or two GETs. *)
Definition fetch_prefix (self : strategy) (accessToken : value)
  (f : list Event) : Prop :=
  f = [] \/
  f = [SetAccessTokenName [VStr "oauth2_access_token"];
       HttpGet (profileUrl self) accessToken] \/
  f = [SetAccessTokenName [VStr "oauth2_access_token"];
       HttpGet (profileUrl self) accessToken;
       HttpGet (emailUrl self) accessToken].

(** An image element that contributes no photo: a falsy element, or one
    whose [identifiers] are falsy or an empty list. *)
Definition no_identifier (el : value) : bool :=
  negb (truthy el) ||
  match get_field el "identifiers" with
  | VArr [] => true
  | VArr (_ :: _) => false
  | ids => negb (truthy ids)
  end.

(** A callback that returns, whatever it is given. *)
Definition always_returns (done : list value -> M value) : Prop :=
  forall args, exists v, result (done args) = Ok v.

(* ================================================================== *)
(** ** Basic facts *)
(* ================================================================== *)

Lemma truthy_not_nullish (v : value) : truthy v = true -> nullish v = false.
Proof. destruct v; simpl; congruence. Qed.

Lemma nullish_not_truthy (v : value) : nullish v = true -> truthy v = false.
Proof. destruct v; simpl; congruence. Qed.

Lemma prop_present (v : value) (k : string) :
  nullish v = false -> prop v k = Ok (get_field v k).
Proof. intros H. unfold prop. now rewrite H. Qed.

Lemma prop_absent (v : value) (k : string) :
  nullish v = true -> prop v k = Throw (TypeError k).
Proof. intros H. unfold prop. now rewrite H. Qed.

Lemma get_field_nullish (v : value) (k : string) :
  nullish v = true -> get_field v k = VUndef.
Proof. destruct v; simpl; congruence. Qed.

Lemma nth_or_default (l : list value) (i : nat) (d : value) :
  nth i l d = match nth_error l i with Some x => x | None => d end.
Proof.
  revert i. induction l as [| x rest IH]; intros [| i]; simpl; auto.
Qed.

(** [get_field] is the own property, [undefined] without one. *)
Lemma get_field_own (v : value) (k : string) :
  get_field v k = match own_field v k with Some x => x | None => VUndef end.
Proof.
  destruct v; simpl; try reflexivity.
  - destruct (k =? "length"); [reflexivity |].
    destruct (index_of_key k) as [i |]; [| reflexivity].
    now destruct (String.get i s).
  - destruct (k =? "length"); [reflexivity |].
    destruct (index_of_key k) as [i |]; [| reflexivity].
    apply nth_or_default.
  - destruct (k =? "name"); [reflexivity |].
    destruct (k =? "message"); [reflexivity |].
    now destruct (k =? "oauthError").
Qed.

Lemma js_or_decided (v : value) (b : Run value) :
  truthy v = true -> js_or (Ok v) b = Ok v.
Proof. intros H. unfold js_or. simpl. now rewrite H. Qed.

Lemma js_or_undecided (v : value) (b : Run value) :
  truthy v = false -> js_or (Ok v) b = b.
Proof. intros H. unfold js_or. simpl. now rewrite H. Qed.

Lemma js_and_decided (v : value) (b : Run value) :
  truthy v = false -> js_and (Ok v) b = Ok v.
Proof. intros H. unfold js_and. simpl. now rewrite H. Qed.

Lemma js_and_undecided (v : value) (b : Run value) :
  truthy v = true -> js_and (Ok v) b = b.
Proof. intros H. unfold js_and. simpl. now rewrite H. Qed.

Lemma lookup_set_field (k : string) (v : value) (fs : list (string * value)) :
  lookup_field k (set_field k v fs) = Some v.
Proof.
  induction fs as [| [k' v'] rest IH]; simpl.
  - now rewrite String.eqb_refl.
  - destruct (k' =? k) eqn:E; simpl.
    + now rewrite String.eqb_refl.
    + now rewrite E.
Qed.

Lemma lookup_set_field_other (k k' : string) (v : value)
  (fs : list (string * value)) :
  (k =? k') = false ->
  lookup_field k' (set_field k v fs) = lookup_field k' fs.
Proof.
  intros Hk. induction fs as [| [k0 v0] rest IH]; simpl.
  - now rewrite Hk.
  - destruct (k0 =? k) eqn:E; simpl.
    + apply String.eqb_eq in E. subst k0. now rewrite Hk.
    + destruct (k0 =? k'); [reflexivity | exact IH].
Qed.

(** The body tier never throws: a truthy body is an object. *)
Lemma body_tier (req : request) :
  (if truthy (body req) then
     (a <- prop (body req) "access_token" ;;
      r <- prop (body req) "refresh_token" ;;
      Ok (a, r))%run
   else Ok (VUndef, VUndef))
  = Ok (from_body req "access_token", from_body req "refresh_token").
Proof.
  unfold from_body. destruct (truthy (body req)) eqn:E; [| reflexivity].
  apply truthy_not_nullish in E.
  rewrite !prop_present by exact E. reflexivity.
Qed.

Lemma extract_tokens_eq (req : request) :
  extract_tokens req =
  (accessToken <- select_token (from_body req "access_token") req "access_token" ;;
   refreshToken <- select_token (from_body req "refresh_token") req "refresh_token" ;;
   Ok (accessToken, refreshToken))%run.
Proof. unfold extract_tokens. rewrite body_tier. reflexivity. Qed.

Lemma select_token_present (b : value) (req : request) (k : string) :
  nullish (query req) = false ->
  nullish (headers req) = false ->
  select_token b req k =
  Ok (first_tier b (get_field (query req) k) (get_field (headers req) k)).
Proof.
  intros Hq Hh. unfold select_token, first_tier.
  rewrite !prop_present by assumption.
  destruct (truthy b) eqn:Eb.
  - now rewrite !js_or_decided.
  - rewrite (js_or_undecided _ _ Eb).
    destruct (truthy (get_field (query req) k)) eqn:Eq.
    + now rewrite js_or_decided.
    + now rewrite js_or_undecided.
Qed.

Lemma extract_tokens_present (req : request) :
  nullish (query req) = false ->
  nullish (headers req) = false ->
  extract_tokens req =
  Ok (first_tier (from_body req "access_token")
                 (get_field (query req) "access_token")
                 (get_field (headers req) "access_token"),
      first_tier (from_body req "refresh_token")
                 (get_field (query req) "refresh_token")
                 (get_field (headers req) "refresh_token")).
Proof.
  intros Hq Hh. rewrite extract_tokens_eq.
  rewrite !select_token_present by assumption. reflexivity.
Qed.

Lemma bind_lift_ok {A B : Type} (a : A) (f : A -> M B) :
  bind (lift (Ok a)) f = f a.
Proof. unfold bind, lift. now destruct (f a). Qed.

Lemma bind_lift_throw {A B : Type} (e : value) (f : A -> M B) :
  bind (lift (Throw e)) f = ([], Throw e).
Proof. reflexivity. Qed.

Lemma bind_ret {A B : Type} (a : A) (f : A -> M B) : bind (ret a) f = f a.
Proof. unfold bind, ret. now destruct (f a). Qed.

Lemma self_fail_eq (args : list value) :
  self_fail args = ([SinkFail args], Ok VUndef).
Proof. reflexivity. Qed.

Lemma self_error_eq (args : list value) :
  self_error args = ([SinkError args], Ok VUndef).
Proof. reflexivity. Qed.

Lemma self_success_eq (args : list value) :
  self_success args = ([SinkSuccess args], Ok VUndef).
Proof. reflexivity. Qed.

Section Claims.
Context {engine : Engine}.
Local Open Scope eff_scope.

(** [authenticate], with the test of line 73 decided. *)
Lemma authenticate_eq (self : strategy) (req : request) (options : value) :
  authenticate self req options =
  if denied req then self_fail []
  else
    tokens <- lift (extract_tokens req) ;;
    if negb (truthy (fst tokens)) then self_fail []
    else
      _ <- _loadUserProfile self (fst tokens)
             (authenticate_loaded self req (fst tokens) (snd tokens)) ;;
      ret VUndef.
Proof.
  unfold authenticate, denied.
  destruct (truthy (query req)) eqn:Eq.
  - rewrite (js_and_undecided _ _ Eq).
    rewrite prop_present by now apply truthy_not_nullish.
    rewrite bind_lift_ok. reflexivity.
  - rewrite (js_and_decided _ _ Eq). rewrite bind_lift_ok.
    rewrite Eq. reflexivity.
Qed.

(** A request without the error indicator whose tokens resolve reaches the
    profile-load gate with exactly these tokens. *)
Lemma authenticate_loads (self : strategy) (req : request) (options : value)
  (accessToken refreshToken : value) :
  denied req = false ->
  extract_tokens req = Ok (accessToken, refreshToken) ->
  truthy accessToken = true ->
  authenticate self req options =
  (_ <- _loadUserProfile self accessToken
          (authenticate_loaded self req accessToken refreshToken) ;;
   ret VUndef).
Proof.
  intros Hd He Ht. rewrite authenticate_eq, Hd, He, bind_lift_ok.
  simpl. now rewrite Ht.
Qed.

(** A request whose token extraction throws reaches no collaborator. *)
Lemma authenticate_throws (self : strategy) (req : request) (options : value)
  (e : value) :
  denied req = false ->
  extract_tokens req = Throw e ->
  authenticate self req options = ([], Throw e).
Proof.
  intros Hd He. rewrite authenticate_eq, Hd, He. reflexivity.
Qed.

(** C3 (amended): for each of the two token fields, the body value is
    selected when it is truthy, whatever the query and the headers hold;
    otherwise, on a request that has a query object, the query value when
    it is truthy, whatever the headers hold; otherwise, on a request that
    has a query object and a headers object, the header value.  A request
    that has a query and headers resolves both tokens this way, each field
    on its own. *)
Theorem token_precedence (req : request) (k : string) (b : value) :
  (truthy b = true -> select_token b req k = Ok b) /\
  (truthy b = false ->
   nullish (query req) = false ->
   truthy (get_field (query req) k) = true ->
   select_token b req k = Ok (get_field (query req) k)) /\
  (truthy b = false ->
   nullish (query req) = false ->
   truthy (get_field (query req) k) = false ->
   nullish (headers req) = false ->
   select_token b req k = Ok (get_field (headers req) k)) /\
  (nullish (query req) = false ->
   nullish (headers req) = false ->
   extract_tokens req =
   Ok (first_tier (from_body req "access_token")
                  (get_field (query req) "access_token")
                  (get_field (headers req) "access_token"),
       first_tier (from_body req "refresh_token")
                  (get_field (query req) "refresh_token")
                  (get_field (headers req) "refresh_token"))).
Proof.
  repeat split.
  - intros Hb. unfold select_token. now rewrite !js_or_decided.
  - intros Hb Hq Hv. unfold select_token.
    rewrite (js_or_undecided _ _ Hb), (prop_present _ _ Hq).
    now rewrite !js_or_decided.
  - intros Hb Hq Hv Hh. unfold select_token.
    rewrite (js_or_undecided _ _ Hb), (prop_present _ _ Hq).
    rewrite (js_or_undecided _ _ Hv). now apply prop_present.
  - apply extract_tokens_present.
Qed.

(** C4 (amended): a request that exposes the error indicator in its query,
    or that has a query object and a headers object and holds no truthy
    access token in body, query and headers, ends in [fail()] and nothing
    else: no call of [error] or [success], no call of the HTTP
    capability. *)
Theorem local_rejection_fails (self : strategy) (req : request)
  (options : value) :
  (truthy (query req) = true /\
   truthy (get_field (query req) "error") = true) \/
  (nullish (query req) = false /\
   nullish (headers req) = false /\
   truthy (from_body req "access_token") = false /\
   truthy (get_field (query req) "access_token") = false /\
   truthy (get_field (headers req) "access_token") = false) ->
  authenticate self req options = ([SinkFail []], Ok VUndef) /\
  sink_calls (trace (authenticate self req options)) = [SinkFail []] /\
  http_calls (trace (authenticate self req options)) = [].
Proof.
  intros H.
  assert (E : authenticate self req options = ([SinkFail []], Ok VUndef)).
  { rewrite authenticate_eq.
    destruct (denied req) eqn:Hd; [reflexivity |].
    destruct H as [[Hq He] | (Hq & Hh & Hb & Hqt & Hht)].
    - unfold denied in Hd. rewrite Hq, He in Hd. discriminate.
    - rewrite (extract_tokens_present _ Hq Hh), bind_lift_ok.
      unfold first_tier at 1. simpl fst. rewrite Hb, Hqt, Hht.
      reflexivity. }
  rewrite E. repeat split.
Qed.

Lemma select_token_no_query (b : value) (req : request) (k : string) :
  nullish (query req) = true ->
  select_token b req k = if truthy b then Ok b else Throw (TypeError k).
Proof.
  intros Hq. unfold select_token. rewrite (prop_absent _ _ Hq).
  destruct (truthy b) eqn:Eb.
  - now rewrite !js_or_decided.
  - now rewrite (js_or_undecided _ _ Eb).
Qed.

Lemma select_token_no_headers (b : value) (req : request) (k : string) :
  nullish (query req) = false ->
  nullish (headers req) = true ->
  select_token b req k =
  if truthy (first_of_two b (get_field (query req) k))
  then Ok (first_of_two b (get_field (query req) k))
  else Throw (TypeError k).
Proof.
  intros Hq Hh. unfold select_token, first_of_two.
  rewrite (prop_present _ _ Hq), (prop_absent _ _ Hh).
  destruct (truthy b) eqn:Eb.
  - rewrite !js_or_decided by assumption. now rewrite Eb.
  - rewrite (js_or_undecided _ _ Eb).
    destruct (truthy (get_field (query req) k)) eqn:Ev.
    + now rewrite js_or_decided.
    + now rewrite js_or_undecided.
Qed.

Lemma not_denied_without_query (req : request) :
  nullish (query req) = true -> denied req = false.
Proof.
  intros H. unfold denied. now rewrite (nullish_not_truthy _ H).
Qed.

(** C10 (amended): token extraction reads [req.query] unless the body tier
    already yields a truthy value for the token at hand, and [req.headers]
    unless body or query do.  Without a query object, a request whose body
    carries both tokens resolves them from the body; one whose body carries
    the access token but no refresh token throws while resolving the refresh
    token, and one without a body access token throws while resolving the
    access token; [authenticate] then throws before any sink call.  With a
    query but without headers, extraction throws as soon as body and query
    leave one of the tokens unresolved.  With both objects it never
    throws. *)
Theorem extraction_dereferences_lazily (self : strategy) (req : request)
  (options : value) :
  (nullish (query req) = true ->
   (truthy (from_body req "access_token") = true ->
    truthy (from_body req "refresh_token") = true ->
    extract_tokens req =
    Ok (from_body req "access_token", from_body req "refresh_token")) /\
   (truthy (from_body req "access_token") = true ->
    truthy (from_body req "refresh_token") = false ->
    extract_tokens req = Throw (TypeError "refresh_token") /\
    authenticate self req options = ([], Throw (TypeError "refresh_token"))) /\
   (truthy (from_body req "access_token") = false ->
    extract_tokens req = Throw (TypeError "access_token") /\
    authenticate self req options = ([], Throw (TypeError "access_token")))) /\
  (nullish (query req) = false ->
   nullish (headers req) = true ->
   let accessToken :=
     first_of_two (from_body req "access_token")
                  (get_field (query req) "access_token") in
   let refreshToken :=
     first_of_two (from_body req "refresh_token")
                  (get_field (query req) "refresh_token") in
   (truthy accessToken = true ->
    truthy refreshToken = true ->
    extract_tokens req = Ok (accessToken, refreshToken)) /\
   (truthy accessToken = true ->
    truthy refreshToken = false ->
    extract_tokens req = Throw (TypeError "refresh_token")) /\
   (truthy accessToken = false ->
    extract_tokens req = Throw (TypeError "access_token"))) /\
  (nullish (query req) = false ->
   nullish (headers req) = false ->
   exists accessToken refreshToken,
     extract_tokens req = Ok (accessToken, refreshToken)).
Proof.
  split; [| split].
  - intros Hq.
    pose proof (not_denied_without_query _ Hq) as Hd.
    rewrite extract_tokens_eq, !(select_token_no_query _ _ _ Hq).
    split; [| split].
    + intros Ha Hr. now rewrite Ha, Hr.
    + intros Ha Hr.
      assert (E : extract_tokens req = Throw (TypeError "refresh_token")).
      { rewrite extract_tokens_eq, !(select_token_no_query _ _ _ Hq).
        now rewrite Ha, Hr. }
      split; [now rewrite Ha, Hr | now apply authenticate_throws].
    + intros Ha.
      assert (E : extract_tokens req = Throw (TypeError "access_token")).
      { rewrite extract_tokens_eq, !(select_token_no_query _ _ _ Hq).
        now rewrite Ha. }
      split; [now rewrite Ha | now apply authenticate_throws].
  - intros Hq Hh. cbv zeta.
    rewrite extract_tokens_eq, !(select_token_no_headers _ _ _ Hq Hh).
    split; [| split].
    + intros Ha Hr. now rewrite Ha, Hr.
    + intros Ha Hr. now rewrite Ha, Hr.
    + intros Ha. now rewrite Ha.
  - intros Hq Hh. rewrite (extract_tokens_present _ Hq Hh). eauto.
Qed.

(* ------------------------------------------------------------------ *)
(** *** One sink call per request *)

Lemma sink_calls_app (t t' : list Event) :
  sink_calls (t ++ t') = (sink_calls t ++ sink_calls t')%list.
Proof. apply filter_app. Qed.

Lemma bind_ok {A B : Type} (t : list Event) (a : A) (f : A -> M B) :
  bind (t, Ok a) f = ((t ++ trace (f a))%list, result (f a)).
Proof. unfold bind, trace, result. now destruct (f a). Qed.

Lemma once_after (t : list Event) (f : unit -> M value) :
  sink_calls t = [] -> once (f tt) -> once (bind (t, Ok tt) f).
Proof.
  intros Ht (ev & v & Hs & Hr). exists ev, v.
  rewrite bind_ok. unfold trace, result in *. simpl.
  now rewrite sink_calls_app, Ht, Hs.
Qed.

Lemma once_returning (m : M value) (w : value) :
  once m -> once (_ <- m ;; ret w).
Proof.
  intros (ev & v & Hs & Hr). destruct m as [t r].
  unfold trace, result in *. simpl in *. subst r.
  exists ev, w. simpl. now rewrite app_nil_r.
Qed.

Lemma try_catch_returns {A : Type} (m : M A) (h : value -> M A) (a : A) :
  result m = Ok a -> try_catch m h = m.
Proof.
  destruct m as [t r]. unfold result. simpl. intros ->. reflexivity.
Qed.

Lemma try_catch_thrown {A : Type} (e : value) (h : value -> M A) :
  try_catch ([], Throw e) h = h e.
Proof. unfold try_catch. now destruct (h e). Qed.

Lemma verified_once (args : list value) : once (verified args).
Proof.
  unfold verified.
  destruct (truthy (arg 0 args)).
  - exists (SinkError [arg 0 args]), VUndef. now split.
  - destruct (truthy (arg 1 args)); simpl.
    + exists (SinkSuccess [arg 1 args; arg 2 args]), VUndef. now split.
    + exists (SinkFail [arg 2 args]), VUndef. now split.
Qed.

Lemma authenticate_loaded_once (self : strategy) (req : request)
  (accessToken refreshToken : value) (args : list value) :
  calls_back_once (_verify self) ->
  once (authenticate_loaded self req accessToken refreshToken args).
Proof.
  intros Hv. unfold authenticate_loaded.
  destruct (truthy (arg 0 args)).
  - exists (SinkFail [arg 0 args]), VUndef. now split.
  - destruct (truthy (_passReqToCallback self)).
    + destruct (Hv [AReq req; AVal accessToken; AVal refreshToken;
                    AVal (arg 1 args)]) as [reply Hr].
      simpl in Hr. rewrite Hr.
      apply (once_after [_]); [reflexivity |].
      apply once_returning, verified_once.
    + destruct (Hv [AVal accessToken; AVal refreshToken;
                    AVal (arg 1 args)]) as [reply Hr].
      simpl in Hr. rewrite Hr.
      apply (once_after [_]); [reflexivity |].
      apply once_returning, verified_once.
Qed.

Lemma userProfile_email_once (done : list value -> M value)
  (profileBody : value) (args : list value) :
  (forall a, once (done a)) ->
  once (userProfile_email done profileBody args).
Proof.
  intros Hd. unfold userProfile_email.
  destruct (truthy (arg 0 args)); [apply Hd |].
  apply once_returning.
  destruct (build_profile profileBody (arg 1 args)) as [profile | e].
  - rewrite bind_lift_ok.
    destruct (Hd [VNull; profile]) as (ev & v & Hs & Hr).
    rewrite (try_catch_returns _ _ _ Hr). now exists ev, v.
  - rewrite bind_lift_throw, try_catch_thrown. apply Hd.
Qed.

Lemma userProfile_profile_once (self : strategy) (accessToken : value)
  (done : list value -> M value) (args : list value) :
  calls_back_once (get (_oauth2 self)) ->
  (forall a, once (done a)) ->
  once (userProfile_profile self accessToken done args).
Proof.
  intros Hg Hd. unfold userProfile_profile.
  destruct (truthy (arg 0 args)); [apply Hd |].
  apply once_returning. unfold call_get.
  destruct (Hg [AVal (emailUrl self); AVal accessToken]) as [reply Hr].
  simpl in Hr. rewrite Hr.
  apply (once_after [_]); [reflexivity |].
  now apply userProfile_email_once.
Qed.

Lemma userProfile_once (self : strategy) (accessToken : value)
  (done : list value -> M value) :
  calls_back_once (get (_oauth2 self)) ->
  returns_value (setAccessTokenName (_oauth2 self)) ->
  (forall a, once (done a)) ->
  once (userProfile self accessToken done).
Proof.
  intros Hg Hs Hd. unfold userProfile.
  destruct (Hs [AVal (VStr "oauth2_access_token")]) as [v Hv]. rewrite Hv.
  apply (once_after [_]); [reflexivity |].
  rewrite bind_ret. apply once_returning. unfold call_get.
  destruct (Hg [AVal (profileUrl self); AVal accessToken]) as [reply Hr].
  simpl in Hr. rewrite Hr.
  apply (once_after [_]); [reflexivity |].
  now apply userProfile_profile_once.
Qed.

Lemma loadUserProfile_once (self : strategy) (accessToken : value)
  (done : list value -> M value) :
  calls_back_once (get (_oauth2 self)) ->
  returns_value (setAccessTokenName (_oauth2 self)) ->
  skip_well_behaved (_skipUserProfile self) ->
  (forall a, once (done a)) ->
  once (_loadUserProfile self accessToken done).
Proof.
  intros Hg Hs Hk Hd.
  assert (Hload : once (loadIt self accessToken done))
    by now apply userProfile_once.
  unfold _loadUserProfile.
  destruct (_skipUserProfile self) as [v | n f]; simpl in Hk.
  - destruct (truthy v); simpl; [apply Hd | exact Hload].
  - destruct (1 <? n)%nat.
    + destruct (Hk [AVal accessToken]) as [reply Hr]. simpl in Hr.
      rewrite Hr.
      apply (once_after [_]); [reflexivity |].
      apply once_returning. unfold loadUserProfile_async.
      destruct (truthy (arg 0 reply)); [apply Hd |].
      destruct (truthy (arg 1 reply)); simpl; [apply Hd | exact Hload].
    + destruct (Hk []) as [v Hv]. rewrite Hv.
      apply (once_after [_]); [reflexivity |].
      rewrite bind_ret.
      destruct (truthy v); simpl; [apply Hd | exact Hload].
Qed.

(** C2 (amended): for a request that has a query and headers, and with
    well-behaved collaborators -- the asynchronous skip predicate, the HTTP
    capability and the verify callback each call their callback exactly
    once and do nothing else (no call of their own, no exception, before or
    after); the synchronous skip predicate and the setter of the token name
    return a value -- [authenticate] makes exactly one sink call -- one of
    [fail], [error], [success], once -- and returns. *)
Theorem exactly_one_sink_call (self : strategy) (req : request)
  (options : value) :
  well_behaved self ->
  nullish (query req) = false ->
  nullish (headers req) = false ->
  exists ev : Event,
    sink_calls (trace (authenticate self req options)) = [ev] /\
    result (authenticate self req options) = Ok VUndef.
Proof.
  intros (Hv & Hg & Hs & Hk) Hq Hh.
  rewrite authenticate_eq.
  destruct (denied req); [now exists (SinkFail []) |].
  rewrite (extract_tokens_present _ Hq Hh), bind_lift_ok.
  set (accessToken := fst _). set (refreshToken := snd _).
  destruct (truthy accessToken); simpl; [| now exists (SinkFail [])].
  destruct (loadUserProfile_once self accessToken
              (authenticate_loaded self req accessToken refreshToken)
              Hg Hs Hk) as (ev & v & Hev & Hr).
  { intros a. now apply authenticate_loaded_once. }
  destruct (_loadUserProfile self accessToken
              (authenticate_loaded self req accessToken refreshToken))
    as [t r].
  unfold trace, result in *. simpl in *. subst r. simpl.
  exists ev. now rewrite app_nil_r.
Qed.

(* ------------------------------------------------------------------ *)
(** *** Errors of the profile-load step *)

(** C1 (amended): the callback that [authenticate] hands to the profile
    loader routes a truthy [err] to the sink [fail(err)], with the error as
    the argument of [fail]; it calls neither [error] nor the verify
    callback. *)
Theorem load_error_goes_to_fail (self : strategy) (req : request)
  (accessToken refreshToken err : value) (rest : list value) :
  truthy err = true ->
  authenticate_loaded self req accessToken refreshToken (err :: rest) =
  ([SinkFail [err]], Ok VUndef).
Proof.
  intros H. unfold authenticate_loaded.
  change (arg 0 (err :: rest)) with err. now rewrite H.
Qed.

(* ------------------------------------------------------------------ *)
(** *** The two GETs of userProfile *)

(** C5: when the HTTP capability answers the profile GET with a truthy
    error, [userProfile] issues that GET only and calls [done] once, with
    the error wrapping 'failed to fetch user profile' and the cause; when
    the profile GET succeeds and the email GET is answered with a truthy
    error, it issues both GETs in this order and calls [done] once, with the
    error wrapping 'failed to fetch user email' and the cause. *)
Theorem profile_then_email (self : strategy) (accessToken : value)
  (done : list value -> M value) :
  returns_value (setAccessTokenName (_oauth2 self)) ->
  (forall profileReply : list value,
     truthy (arg 0 profileReply) = true ->
     (forall cb,
        get (_oauth2 self)
          [AVal (profileUrl self); AVal accessToken; ACb cb] =
        cb profileReply) ->
     userProfile self accessToken done =
     (_ <- ([SetAccessTokenName [VStr "oauth2_access_token"];
             HttpGet (profileUrl self) accessToken], Ok tt) ;;
      _ <- done [InternalOAuthError "failed to fetch user profile"
                   (arg 0 profileReply)] ;;
      ret VUndef)) /\
  (forall profileReply emailReply : list value,
     truthy (arg 0 profileReply) = false ->
     truthy (arg 0 emailReply) = true ->
     (forall cb,
        get (_oauth2 self)
          [AVal (profileUrl self); AVal accessToken; ACb cb] =
        cb profileReply) ->
     (forall cb,
        get (_oauth2 self)
          [AVal (emailUrl self); AVal accessToken; ACb cb] =
        cb emailReply) ->
     userProfile self accessToken done =
     (_ <- ([SetAccessTokenName [VStr "oauth2_access_token"];
             HttpGet (profileUrl self) accessToken;
             HttpGet (emailUrl self) accessToken], Ok tt) ;;
      _ <- done [InternalOAuthError "failed to fetch user email"
                   (arg 0 emailReply)] ;;
      ret VUndef)).
Proof.
  intros Hs.
  destruct (Hs [AVal (VStr "oauth2_access_token")]) as [v Hv].
  split.
  - intros profileReply Herr Hget.
    unfold userProfile, call_get. rewrite Hv, Hget.
    unfold userProfile_profile. rewrite Herr.
    destruct (done _) as [t [w | e]]; simpl; now rewrite ?app_nil_r.
  - intros profileReply emailReply Hok Herr Hget Hget'.
    unfold userProfile, call_get. rewrite Hv, Hget.
    unfold userProfile_profile, call_get. rewrite Hok, Hget'.
    unfold userProfile_email. rewrite Herr.
    destruct (done _) as [t [w | e]]; simpl; now rewrite ?app_nil_r.
Qed.

(* ------------------------------------------------------------------ *)
(** *** The profile-load gate *)

Lemma verified_no_http (args : list value) :
  http_calls (trace (verified args)) = [].
Proof.
  unfold verified.
  destruct (truthy (arg 0 args)); [reflexivity |].
  destruct (truthy (arg 1 args)); reflexivity.
Qed.

(** C8 (amended): a skip predicate that is a function of fewer than two
    parameters is called synchronously without any argument, and what it
    returns decides.  Whenever the resolved value is truthy -- a truthy
    setting such as [true], a truthy return of the synchronous predicate, a
    truthy answer of the asynchronous one -- the gate calls [done(null)]
    and issues no GET; the callback of [authenticate] then hands an
    undefined profile to the verify callback. *)
Theorem skip_gate (self : strategy) (req : request)
  (accessToken refreshToken : value) (done : list value -> M value) :
  (forall n f,
     _skipUserProfile self = SkipFunction n f ->
     (n < 2)%nat ->
     _loadUserProfile self accessToken done =
     (_ <- emit (SkipPredicate []) ;;
      skip <- f [] ;;
      if truthy skip then done [VNull]
      else userProfile self accessToken done)) /\
  (forall v,
     _skipUserProfile self = SkipValue v ->
     truthy v = true ->
     _loadUserProfile self accessToken done = done [VNull]) /\
  (forall n f v,
     _skipUserProfile self = SkipFunction n f ->
     (n < 2)%nat ->
     f [] = ret v ->
     truthy v = true ->
     _loadUserProfile self accessToken done =
     (_ <- emit (SkipPredicate []) ;; done [VNull])) /\
  (forall n f reply,
     _skipUserProfile self = SkipFunction n f ->
     (2 <= n)%nat ->
     (forall cb, f [AVal accessToken; ACb cb] = cb reply) ->
     truthy (arg 0 reply) = false ->
     truthy (arg 1 reply) = true ->
     _loadUserProfile self accessToken done =
     (_ <- emit (SkipPredicate [accessToken]) ;;
      _ <- done [VNull] ;;
      ret VUndef)) /\
  (calls_back_once (_verify self) ->
   exists ev : Event,
     trace (authenticate_loaded self req accessToken refreshToken [VNull]) =
     [VerifyCall (if truthy (_passReqToCallback self) then Some req else None)
        accessToken refreshToken VUndef; ev] /\
     is_sink ev = true) /\
  (forall v options,
     _skipUserProfile self = SkipValue v ->
     truthy v = true ->
     calls_back_once (_verify self) ->
     denied req = false ->
     extract_tokens req = Ok (accessToken, refreshToken) ->
     truthy accessToken = true ->
     http_calls (trace (authenticate self req options)) = []).
Proof.
  assert (Hverify : calls_back_once (_verify self) ->
    exists ev : Event,
      trace (authenticate_loaded self req accessToken refreshToken [VNull]) =
      [VerifyCall (if truthy (_passReqToCallback self) then Some req else None)
         accessToken refreshToken VUndef; ev] /\
      is_sink ev = true).
  { intros Hver. unfold authenticate_loaded. simpl.
    destruct (truthy (_passReqToCallback self)).
    + destruct (Hver [AReq req; AVal accessToken; AVal refreshToken;
                      AVal VUndef]) as [reply Hr].
      simpl in Hr. rewrite Hr.
      unfold verified.
      destruct (truthy (arg 0 reply)); [eexists; split; reflexivity |].
      destruct (truthy (arg 1 reply)); eexists; split; reflexivity.
    + destruct (Hver [AVal accessToken; AVal refreshToken; AVal VUndef])
        as [reply Hr].
      simpl in Hr. rewrite Hr.
      unfold verified.
      destruct (truthy (arg 0 reply)); [eexists; split; reflexivity |].
      destruct (truthy (arg 1 reply)); eexists; split; reflexivity. }
  split; [| split; [| split; [| split; [| split]]]].
  - intros n f Hk Hn. unfold _loadUserProfile. rewrite Hk.
    replace (1 <? n)%nat with false
      by (symmetry; apply Nat.ltb_ge; lia).
    unfold loadIt, skipIt.
    destruct (f []) as [t [skip | e]]; [| reflexivity].
    simpl. now destruct (truthy skip).
  - intros v Hk Hv. unfold _loadUserProfile. rewrite Hk, Hv. reflexivity.
  - intros n f v Hk Hn Hf Hv. unfold _loadUserProfile. rewrite Hk.
    replace (1 <? n)%nat with false
      by (symmetry; apply Nat.ltb_ge; lia).
    rewrite Hf. unfold skipIt.
    destruct (done [VNull]) as [t r]. simpl. now rewrite Hv.
  - intros n f reply Hk Hn Hf He Hv. unfold _loadUserProfile. rewrite Hk.
    replace (1 <? n)%nat with true
      by (symmetry; apply Nat.ltb_lt; lia).
    rewrite Hf. unfold loadUserProfile_async, skipIt. now rewrite He, Hv.
  - exact Hverify.
  - intros v options Hk Hv Hver Hd He Ht.
    rewrite (authenticate_loads _ _ _ _ _ Hd He Ht).
    unfold _loadUserProfile. rewrite Hk, Hv. unfold skipIt. simpl negb.
    cbv iota.
    destruct (Hverify Hver) as (ev & Htr & Hev).
    destruct (authenticate_loaded self req accessToken refreshToken [VNull])
      as [t r].
    unfold trace in Htr. simpl in Htr. subst t.
    destruct r as [w | e]; simpl; now destruct ev.
Qed.

(* ------------------------------------------------------------------ *)
(** *** The normalizer *)

Lemma get_field_of_falsy (v : value) (k : string) :
  truthy v = false ->
  (k =? "length") = false ->
  get_field v k = VUndef.
Proof.
  intros Hv Hk. destruct v; simpl in *; try reflexivity; try discriminate.
  rewrite Hk. apply negb_false_iff, String.eqb_eq in Hv. subst s.
  now destruct (index_of_key k) as [[| i] |].
Qed.

(** C9 (amended): for a name whose preferred locale holds the strings
    [language] and [country], the resolver indexes the localized mapping
    with the key [language ++ "_" ++ country] and returns what the mapping
    has there -- its own property, else the member inherited from its
    prototype chain -- consulting no other locale; it raises no error for a
    missing key: when the mapping has no own property under the key, it
    returns the member that the mapping inherits under it, and [undefined]
    when it inherits none. *)
Theorem localized_name_lookup (name : value) (language country : string) :
  nullish name = false ->
  nullish (get_field name "localized") = false ->
  get_field (get_field name "preferredLocale") "language" = VStr language ->
  get_field (get_field name "preferredLocale") "country" = VStr country ->
  getLocalizedName name =
  Ok (member (get_field name "localized") (language ++ "_" ++ country)) /\
  (forall x,
     own_field (get_field name "localized") (language ++ "_" ++ country) =
     Some x ->
     getLocalizedName name = Ok x) /\
  (own_field (get_field name "localized") (language ++ "_" ++ country) = None ->
   Inherited (get_field name "localized") (language ++ "_" ++ country) = None ->
   getLocalizedName name = Ok VUndef) /\
  (forall x,
     own_field (get_field name "localized") (language ++ "_" ++ country) =
     None ->
     Inherited (get_field name "localized") (language ++ "_" ++ country) =
     Some x ->
     getLocalizedName name = Ok x).
Proof.
  intros Hn Hl Hlang Hc.
  assert (Hp : nullish (get_field name "preferredLocale") = false).
  { destruct (nullish (get_field name "preferredLocale")) eqn:E; [| easy].
    rewrite (get_field_nullish _ _ E) in Hlang. discriminate. }
  assert (E : getLocalizedName name =
              Ok (member (get_field name "localized")
                    (language ++ "_" ++ country))).
  { unfold getLocalizedName.
    rewrite !(prop_present _ _ Hn). simpl.
    rewrite !(prop_present _ _ Hp). simpl.
    rewrite Hlang, Hc. simpl.
    unfold prop_computed. now rewrite Hl. }
  split; [exact E |]. split; [| split].
  - intros x Hx. rewrite E. unfold member. now rewrite Hx.
  - intros Hown Hinh. rewrite E. unfold member. now rewrite Hown, Hinh.
  - intros x Hown Hinh. rewrite E. unfold member. now rewrite Hown, Hinh.
Qed.

Lemma addEmails_step_eq (memo : list value) (el : value) :
  nullish el = false ->
  addEmails_step memo el = Ok (memo ++ usable_address el)%list.
Proof.
  intros Hel. unfold addEmails_step, usable_address.
  rewrite !(prop_present _ _ Hel).
  destruct (truthy (get_field el "handle~")) eqn:Hh.
  - rewrite (js_and_undecided _ _ Hh). simpl.
    rewrite !(prop_present _ _ (truthy_not_nullish _ Hh)). simpl.
    destruct (truthy (get_field (get_field el "handle~") "emailAddress"));
      simpl; [reflexivity | now rewrite app_nil_r].
  - rewrite (js_and_decided _ _ Hh). simpl. rewrite Hh. simpl.
    now rewrite app_nil_r.
Qed.

Lemma reduce_addEmails (l memo : list value) :
  forallb (fun el => negb (nullish el)) l = true ->
  reduce_list addEmails_step l memo = Ok (memo ++ usable_addresses l)%list.
Proof.
  revert memo. induction l as [| el rest IH]; intros memo Hl; simpl.
  - now rewrite app_nil_r.
  - simpl in Hl. apply andb_true_iff in Hl as [Hel Hrest].
    apply negb_true_iff in Hel.
    rewrite (addEmails_step_eq _ _ Hel). simpl.
    rewrite (IH _ Hrest). now rewrite <- app_assoc.
Qed.

(** C6 (amended): for an email document that is not [null] and whose list of
    elements holds no [null] entry: when the document is an object without
    an [elements] key (or, more generally, holds nothing truthy there), the
    profile is left without [emails]; when its [elements] is a list of
    entries, [emails] is set to [{value: address}] for each entry that
    carries a truthy [handle~] with a truthy [emailAddress], in the order of
    the list, so that a list without such an entry -- the empty list
    included -- yields [emails] present and empty. *)
Theorem emails_absent_or_listed (profile : list (string * value))
  (emailJson : value) :
  (forall fs,
     emailJson = VObj fs ->
     lookup_field "elements" fs = None ->
     addEmails profile emailJson = Ok profile) /\
  (nullish emailJson = false ->
   truthy (get_field emailJson "elements") = false ->
   addEmails profile emailJson = Ok profile) /\
  (forall elements,
     nullish emailJson = false ->
     get_field emailJson "elements" = VArr elements ->
     forallb (fun el => negb (nullish el)) elements = true ->
     addEmails profile emailJson =
     Ok (set_field "emails" (VArr (usable_addresses elements)) profile) /\
     lookup_field "emails"
       (set_field "emails" (VArr (usable_addresses elements)) profile) =
     Some (VArr (usable_addresses elements)) /\
     (forallb (fun el => match usable_address el with
                         | [] => true
                         | _ => false
                         end) elements = true ->
      usable_addresses elements = [])).
Proof.
  split; [| split].
  - intros fs -> Hnone. unfold addEmails, prop. simpl.
    now rewrite Hnone.
  - intros Hdoc Hels. unfold addEmails.
    rewrite !(prop_present _ _ Hdoc). simpl. now rewrite Hels.
  - intros elements Hdoc Hels Hall. split; [| split].
    + unfold addEmails. rewrite !(prop_present _ _ Hdoc), Hels. simpl.
      rewrite (reduce_addEmails _ _ Hall). reflexivity.
    + apply lookup_set_field.
    + clear. induction elements as [| el rest IH]; [reflexivity |].
      simpl. intros H. apply andb_true_iff in H as [Hel Hrest].
      unfold usable_addresses in *. simpl.
      destruct (usable_address el); [now apply IH | discriminate].
Qed.

Lemma addPhotos_step_eq (memo : list value) (el : value) :
  image_element_ok el = true ->
  addPhotos_step memo el = Ok (memo ++ first_identifier el)%list.
Proof.
  intros Hok. unfold addPhotos_step, first_identifier.
  destruct (truthy el) eqn:Hel.
  - unfold image_element_ok in Hok. rewrite Hel in Hok.
    change (negb true) with false in Hok. rewrite orb_false_l in Hok.
    pose proof (truthy_not_nullish _ Hel) as Hn.
    rewrite (js_and_undecided _ _ Hel).
    rewrite !(prop_present _ _ Hn).
    destruct (get_field el "identifiers") as
      [ | | b | n | s | ids | fs | nm msg c ] eqn:Hids;
      lazy beta iota in Hok;
      try (apply negb_true_iff in Hok;
           rewrite (js_and_decided _ _ Hok);
           simpl in *; try discriminate;
           rewrite ?Hok; simpl; now rewrite app_nil_r).
    rewrite js_and_undecided by reflexivity. simpl rbind at 1.
    unfold prop at 1. simpl nullish. cbv iota.
    change (get_field (VArr ids) "length")
      with (VNum (Z.of_nat (List.length ids))).
    destruct ids as [| first more]; simpl.
    + now rewrite app_nil_r.
    + apply negb_true_iff in Hok. now rewrite Hok.
  - rewrite (js_and_decided _ _ Hel). rewrite js_and_decided by exact Hel.
    simpl. rewrite Hel.
    rewrite (get_field_of_falsy _ _ Hel) by reflexivity.
    now rewrite app_nil_r.
Qed.

Lemma reduce_addPhotos (l memo : list value) :
  forallb image_element_ok l = true ->
  reduce_list addPhotos_step l memo = Ok (memo ++ first_identifiers l)%list.
Proof.
  revert memo. induction l as [| el rest IH]; intros memo Hl; simpl.
  - now rewrite app_nil_r.
  - simpl in Hl. apply andb_true_iff in Hl as [Hel Hrest].
    rewrite (addPhotos_step_eq _ _ Hel). simpl.
    rewrite (IH _ Hrest). now rewrite <- app_assoc.
Qed.

(** [addPhotos] leaves the profile alone as soon as a link of the picture
    chain is falsy. *)
Lemma addPhotos_omits (profile : list (string * value)) (profileJson : value) :
  nullish profileJson = false ->
  truthy (get_field profileJson "profilePicture") = false \/
  truthy (get_field (get_field profileJson "profilePicture") "displayImage~")
    = false \/
  truthy (picture_elements profileJson) = false ->
  addPhotos profile profileJson = Ok profile.
Proof.
  intros Hdoc H. unfold addPhotos, picture_elements in *.
  rewrite !(prop_present _ _ Hdoc).
  set (picture := get_field profileJson "profilePicture") in *.
  destruct (truthy picture) eqn:Hp.
  - pose proof (truthy_not_nullish _ Hp) as Hpn.
    rewrite (js_and_undecided _ _ Hp). simpl rbind.
    rewrite !(prop_present _ _ Hpn).
    set (display := get_field picture "displayImage~") in *.
    destruct (truthy display) eqn:Hd.
    + pose proof (truthy_not_nullish _ Hd) as Hdn.
      rewrite (js_and_undecided _ _ Hd). simpl rbind.
      rewrite !(prop_present _ _ Hdn).
      destruct H as [H | [H | H]]; try discriminate.
      rewrite (js_and_decided _ _ H). simpl rbind. now rewrite H.
    + rewrite (js_and_decided _ _ Hd). rewrite js_and_decided by exact Hd.
      simpl rbind. now rewrite Hd.
  - rewrite (js_and_decided _ _ Hp). rewrite !js_and_decided by exact Hp.
    simpl rbind. now rewrite Hp.
Qed.

(** [addPhotos] on a document whose picture chain leads to a list. *)
Lemma addPhotos_listed (profile : list (string * value)) (profileJson : value)
  (elements : list value) :
  nullish profileJson = false ->
  picture_elements profileJson = VArr elements ->
  addPhotos profile profileJson =
  match elements with
  | [] => Ok profile
  | _ =>
      (photos <- reduce_list addPhotos_step elements [] ;;
       Ok (set_field "photos" (VArr photos) profile))%run
  end.
Proof.
  intros Hdoc Hels. unfold addPhotos. unfold picture_elements in Hels.
  rewrite !(prop_present _ _ Hdoc).
  set (picture := get_field profileJson "profilePicture") in *.
  destruct (truthy picture) eqn:Hp.
  2:{ rewrite (get_field_of_falsy picture "displayImage~" Hp) in Hels
        by reflexivity.
      discriminate. }
  pose proof (truthy_not_nullish _ Hp) as Hpn.
  rewrite (js_and_undecided _ _ Hp). simpl rbind.
  rewrite !(prop_present _ _ Hpn).
  set (display := get_field picture "displayImage~") in *.
  destruct (truthy display) eqn:Hd.
  2:{ rewrite (get_field_of_falsy display "elements" Hd) in Hels
        by reflexivity.
      discriminate. }
  pose proof (truthy_not_nullish _ Hd) as Hdn.
  rewrite (js_and_undecided _ _ Hd). simpl rbind.
  rewrite !(prop_present _ _ Hdn). rewrite Hels.
  rewrite js_and_undecided by reflexivity. simpl rbind.
  destruct elements as [| el rest]; [reflexivity |]. simpl.
  destruct (addPhotos_step [] el) as [memo | e]; simpl; [| reflexivity].
  now destruct (reduce_list addPhotos_step rest memo).
Qed.

(** C7 (amended): [photos] is omitted when the nested picture structure,
    its resolved-image wrapper or its element list is falsy, or when the
    list is empty.  Otherwise it holds, in the order of the list, one entry
    [{value: identifier}] for each image element that has a non-empty list
    of identifiers: the identifier of the first entry of that list.  (An
    image element is taken to hold either no identifiers or a list of them
    whose first entry is an object.) *)
Theorem photos_first_identifier_of_each (profile : list (string * value))
  (profileJson : value) :
  nullish profileJson = false ->
  (truthy (get_field profileJson "profilePicture") = false \/
   truthy (get_field (get_field profileJson "profilePicture") "displayImage~")
     = false \/
   truthy (picture_elements profileJson) = false \/
   picture_elements profileJson = VArr [] ->
   addPhotos profile profileJson = Ok profile) /\
  (forall el rest,
     picture_elements profileJson = VArr (el :: rest) ->
     forallb image_element_ok (el :: rest) = true ->
     addPhotos profile profileJson =
     Ok (set_field "photos" (VArr (first_identifiers (el :: rest))) profile)).
Proof.
  intros Hdoc. split.
  - intros [H | [H | [H | H]]].
    + apply addPhotos_omits; auto.
    + apply addPhotos_omits; auto.
    + apply addPhotos_omits; auto.
    + now rewrite (addPhotos_listed _ _ _ Hdoc H).
  - intros el rest Hels Hok.
    rewrite (addPhotos_listed _ _ _ Hdoc Hels).
    now rewrite (reduce_addPhotos _ _ Hok).
Qed.

(* ================================================================== *)
(** ** Further properties of the code *)
(* ================================================================== *)

(* ------------------------------------------------------------------ *)
(** *** authorizationParams and the constructor's options *)

(** X1: [authorizationParams] throws a TypeError when it is given no
    options object; otherwise it returns an object that holds the [state]
    of the options when that is truthy and nothing else, and the empty
    object when it is not. *)
Theorem authorizationParams_state_only (options : value) :
  (nullish options = true ->
   authorizationParams options = Throw (TypeError "state")) /\
  (nullish options = false ->
   truthy (get_field options "state") = true ->
   authorizationParams options =
   Ok (VObj [("state", get_field options "state")])) /\
  (nullish options = false ->
   truthy (get_field options "state") = false ->
   authorizationParams options = Ok (VObj [])).
Proof.
  unfold authorizationParams. split; [| split].
  - intros H. now rewrite (prop_absent _ _ H).
  - intros H Hs. rewrite !(prop_present _ _ H). simpl. now rewrite Hs.
  - intros H Hs. rewrite !(prop_present _ _ H). simpl. now rewrite Hs.
Qed.

Lemma get_set_field (k : string) (v : value) (fs : list (string * value)) :
  get_field (VObj (set_field k v fs)) k = v.
Proof. unfold get_field. now rewrite lookup_set_field. Qed.

Lemma get_set_field_other (k k' : string) (v : value)
  (fs : list (string * value)) :
  (k =? k') = false ->
  get_field (VObj (set_field k v fs)) k' = get_field (VObj fs) k'.
Proof.
  intros H. unfold get_field. now rewrite (lookup_set_field_other _ _ _ _ H).
Qed.

Lemma set_field_same (k : string) (v : value) (fs : list (string * value)) :
  lookup_field k fs = Some v -> set_field k v fs = fs.
Proof.
  induction fs as [| [k' v'] rest IH]; simpl; [discriminate |].
  destruct (k' =? k) eqn:E.
  - apply String.eqb_eq in E. subst k'. now intros [= ->].
  - intros H. now rewrite (IH H).
Qed.

Lemma truthy_field_is_own (k : string) (fs : list (string * value)) :
  truthy (get_field (VObj fs) k) = true ->
  lookup_field k fs = Some (get_field (VObj fs) k).
Proof.
  unfold get_field. destruct (lookup_field k fs); [reflexivity | discriminate].
Qed.

Lemma default_option_keeps (k d : string) (options : list (string * value)) :
  truthy (get_field (VObj options) k) = true ->
  default_option k d options = options.
Proof.
  intros H. unfold default_option, or_default. rewrite H.
  now apply set_field_same, truthy_field_is_own.
Qed.

Lemma default_option_other (k d k' : string)
  (options : list (string * value)) :
  (k =? k') = false ->
  lookup_field k' (default_option k d options) = lookup_field k' options.
Proof. intros H. now apply lookup_set_field_other. Qed.

Lemma get_field_lookup (k : string) (fs fs' : list (string * value)) :
  lookup_field k fs = lookup_field k fs' ->
  get_field (VObj fs) k = get_field (VObj fs') k.
Proof. intros H. unfold get_field. now rewrite H. Qed.

Lemma default_option_value (k d : string) (options : list (string * value)) :
  get_field (VObj (default_option k d options)) k =
  or_default (get_field (VObj options) k) (VStr d).
Proof. unfold default_option. apply get_set_field. Qed.

Lemma default_option_get_other (k d k' : string)
  (options : list (string * value)) :
  (k =? k') = false ->
  get_field (VObj (default_option k d options)) k' =
  get_field (VObj options) k'.
Proof. intros H. unfold default_option. now apply get_set_field_other. Qed.

(** X2: whatever options the caller gives, the options that the
    constructor hands to the base constructor hold, for each of
    [authorizationURL], [tokenURL] and [scopeSeparator], the caller's value
    where that is truthy and otherwise the default
    ('https://www.linkedin.com',
    'https://www.linkedin.com/uas/oauth2/accessToken', ','); every other
    option is handed on unchanged; options that went through once come out
    the same. *)
Theorem constructor_options_defaults
  (options : option (list (string * value))) (k : string) :
  let given := match options with Some o => o | None => [] end in
  let handed := LinkedinTokenStrategy_options options in
  (truthy (get_field (VObj given) "authorizationURL") = true ->
   get_field (VObj handed) "authorizationURL" =
   get_field (VObj given) "authorizationURL") /\
  (truthy (get_field (VObj given) "authorizationURL") = false ->
   get_field (VObj handed) "authorizationURL" =
   VStr "https://www.linkedin.com") /\
  (truthy (get_field (VObj given) "tokenURL") = true ->
   get_field (VObj handed) "tokenURL" = get_field (VObj given) "tokenURL") /\
  (truthy (get_field (VObj given) "tokenURL") = false ->
   get_field (VObj handed) "tokenURL" =
   VStr "https://www.linkedin.com/uas/oauth2/accessToken") /\
  (truthy (get_field (VObj given) "scopeSeparator") = true ->
   get_field (VObj handed) "scopeSeparator" =
   get_field (VObj given) "scopeSeparator") /\
  (truthy (get_field (VObj given) "scopeSeparator") = false ->
   get_field (VObj handed) "scopeSeparator" = VStr ",") /\
  (~ In k ["authorizationURL"; "tokenURL"; "scopeSeparator"] ->
   lookup_field k handed = lookup_field k given) /\
  LinkedinTokenStrategy_options (Some handed) = handed.
Proof.
  intros given handed. subst handed. unfold LinkedinTokenStrategy_options.
  fold given.
  set (o1 := default_option "authorizationURL" "https://www.linkedin.com"
               given).
  set (o2 := default_option "tokenURL"
               "https://www.linkedin.com/uas/oauth2/accessToken" o1).
  set (o3 := default_option "scopeSeparator" "," o2).
  assert (A : get_field (VObj o3) "authorizationURL" =
              or_default (get_field (VObj given) "authorizationURL")
                (VStr "https://www.linkedin.com")).
  { unfold o3, o2. rewrite !default_option_get_other by reflexivity.
    apply default_option_value. }
  assert (B : get_field (VObj o3) "tokenURL" =
              or_default (get_field (VObj given) "tokenURL")
                (VStr "https://www.linkedin.com/uas/oauth2/accessToken")).
  { unfold o3. rewrite default_option_get_other by reflexivity.
    unfold o2. rewrite default_option_value.
    unfold o1. now rewrite default_option_get_other by reflexivity. }
  assert (C : get_field (VObj o3) "scopeSeparator" =
              or_default (get_field (VObj given) "scopeSeparator") (VStr ",")).
  { unfold o3. rewrite default_option_value.
    unfold o2, o1. now rewrite !default_option_get_other by reflexivity. }
  assert (T : forall v d, d <> "" -> truthy (or_default v (VStr d)) = true).
  { intros v d Hd. unfold or_default. destruct (truthy v) eqn:E; [exact E |].
    simpl. apply negb_true_iff. now apply String.eqb_neq. }
  repeat split.
  - intros H. rewrite A. unfold or_default. now rewrite H.
  - intros H. rewrite A. unfold or_default. now rewrite H.
  - intros H. rewrite B. unfold or_default. now rewrite H.
  - intros H. rewrite B. unfold or_default. now rewrite H.
  - intros H. rewrite C. unfold or_default. now rewrite H.
  - intros H. rewrite C. unfold or_default. now rewrite H.
  - intros Hk. unfold o3, o2, o1.
    rewrite !default_option_other; [reflexivity | | |];
      apply String.eqb_neq; intros <-; apply Hk; simpl; auto.
  - assert (T1 : truthy (get_field (VObj o3) "authorizationURL") = true)
      by (rewrite A; now apply T).
    assert (T2 : truthy (get_field (VObj o3) "tokenURL") = true)
      by (rewrite B; now apply T).
    assert (T3 : truthy (get_field (VObj o3) "scopeSeparator") = true)
      by (rewrite C; now apply T).
    rewrite (default_option_keeps _ _ o3 T1).
    rewrite (default_option_keeps _ _ o3 T2).
    now rewrite (default_option_keeps _ _ o3 T3).
Qed.

(* ------------------------------------------------------------------ *)
(** *** The normalizer on sparse and malformed documents *)

Lemma reduce_list_app (fn : list value -> value -> Run (list value))
  (l l' memo : list value) :
  reduce_list fn (l ++ l') memo =
  (memo' <- reduce_list fn l memo ;; reduce_list fn l' memo')%run.
Proof.
  revert memo. induction l as [| el rest IH]; intros memo; simpl.
  - reflexivity.
  - destruct (fn memo el) as [memo' | e]; simpl; [apply IH | reflexivity].
Qed.

(** What [addEmails] returns, when it returns. *)
Lemma addEmails_result (profile profile' : list (string * value))
  (emailJson : value) :
  addEmails profile emailJson = Ok profile' ->
  profile' = profile \/
  exists emails, profile' = set_field "emails" emails profile.
Proof.
  unfold addEmails.
  destruct (prop emailJson "elements") as [els | e]; simpl; [| discriminate].
  destruct (truthy els); [| intros [= <-]; now left].
  destruct (reduce els addEmails_step []) as [emails | e]; simpl;
    [| discriminate].
  intros [= <-]. right. now exists emails.
Qed.

(** What [addPhotos] returns, when it returns. *)
Lemma addPhotos_result (profile profile' : list (string * value))
  (profileJson : value) :
  addPhotos profile profileJson = Ok profile' ->
  profile' = profile \/
  exists photos, profile' = set_field "photos" photos profile.
Proof.
  unfold addPhotos.
  match goal with
  | |- rbind ?c _ = _ -> _ => destruct c as [c' | e]
  end; simpl; [| discriminate].
  destruct (truthy c'); [| intros [= <-]; now left].
  destruct (prop profileJson "profilePicture") as [p | e]; simpl;
    [| discriminate].
  destruct (prop p "displayImage~") as [d | e]; simpl; [| discriminate].
  destruct (prop d "elements") as [els | e]; simpl; [| discriminate].
  destruct (reduce els addPhotos_step []) as [photos | e]; simpl;
    [| discriminate].
  intros [= <-]. right. now exists photos.
Qed.

(** X3: [addEmails] and [addPhotos] write no field of the profile but
    their own: every field other than [emails], respectively [photos], is
    after the call what it was before. *)
Theorem normalizer_writes_own_field_only
  (profile profile' : list (string * value)) (document : value)
  (k : string) :
  (addEmails profile document = Ok profile' ->
   k <> "emails" ->
   lookup_field k profile' = lookup_field k profile) /\
  (addPhotos profile document = Ok profile' ->
   k <> "photos" ->
   lookup_field k profile' = lookup_field k profile).
Proof.
  split; intros H Hk.
  - destruct (addEmails_result _ _ _ H) as [-> | [emails ->]];
      [reflexivity |].
    apply lookup_set_field_other. apply String.eqb_neq. congruence.
  - destruct (addPhotos_result _ _ _ H) as [-> | [photos ->]];
      [reflexivity |].
    apply lookup_set_field_other. apply String.eqb_neq. congruence.
Qed.

(** X4: [addEmails] throws a TypeError, instead of leaving [emails] out,
    when the email document is [null], when its [elements] is truthy but no
    list, and when the list holds a [null] entry (the entries before it being
    other than [null]). *)
Theorem addEmails_throws_on_malformed (profile : list (string * value))
  (emailJson : value) :
  (nullish emailJson = true ->
   addEmails profile emailJson = Throw (TypeError "elements")) /\
  (nullish emailJson = false ->
   truthy (get_field emailJson "elements") = true ->
   (forall l, get_field emailJson "elements" <> VArr l) ->
   addEmails profile emailJson = Throw (TypeError "reduce")) /\
  (forall before el after,
     nullish emailJson = false ->
     get_field emailJson "elements" = VArr (before ++ el :: after) ->
     forallb (fun x => negb (nullish x)) before = true ->
     nullish el = true ->
     addEmails profile emailJson = Throw (TypeError "handle~")).
Proof.
  split; [| split].
  - intros H. unfold addEmails. now rewrite (prop_absent _ _ H).
  - intros H Ht Hl. unfold addEmails.
    rewrite !(prop_present _ _ H). simpl. rewrite Ht. simpl.
    destruct (get_field emailJson "elements"); try reflexivity.
    now destruct (Hl items).
  - intros before el after H Hels Hb Hel. unfold addEmails.
    rewrite !(prop_present _ _ H), Hels. simpl.
    rewrite reduce_list_app, (reduce_addEmails _ _ Hb). simpl.
    unfold addEmails_step. now rewrite (prop_absent _ _ Hel).
Qed.

Lemma no_identifier_ok (el : value) :
  no_identifier el = true ->
  image_element_ok el = true /\ first_identifier el = [].
Proof.
  unfold no_identifier, image_element_ok, first_identifier.
  destruct (truthy el) eqn:Hel; simpl.
  - destruct (get_field el "identifiers") as [ | | | | | [| x l] | | ];
      intros H; try discriminate; now split.
  - intros _. split; [reflexivity |].
    now rewrite (get_field_of_falsy _ "identifiers" Hel).
Qed.

Lemma no_identifiers_ok (l : list value) :
  forallb no_identifier l = true ->
  forallb image_element_ok l = true /\ first_identifiers l = [].
Proof.
  induction l as [| el rest IH]; simpl; [now split |].
  intros H. apply andb_true_iff in H as [Hel Hrest].
  destruct (no_identifier_ok _ Hel) as [Hok Hnone].
  destruct (IH Hrest) as [Hoks Hnones].
  unfold first_identifiers in *. simpl.
  now rewrite Hok, Hoks, Hnone, Hnones.
Qed.

(** X5: when the picture of the profile document holds image elements but
    none of them has an identifier -- falsy elements such as [null]
    included, which are skipped without an error -- [addPhotos] sets
    [photos] to the empty list instead of leaving it out. *)
Theorem photos_present_but_empty (profile : list (string * value))
  (profileJson el : value) (rest : list value) :
  nullish profileJson = false ->
  picture_elements profileJson = VArr (el :: rest) ->
  forallb no_identifier (el :: rest) = true ->
  addPhotos profile profileJson = Ok (set_field "photos" (VArr []) profile) /\
  lookup_field "photos" (set_field "photos" (VArr []) profile) =
  Some (VArr []).
Proof.
  intros Hdoc Hels Hnone.
  destruct (no_identifiers_ok _ Hnone) as [Hok Hempty].
  split; [| apply lookup_set_field].
  rewrite (addPhotos_listed _ _ _ Hdoc Hels).
  rewrite (reduce_addPhotos _ _ Hok), Hempty. reflexivity.
Qed.

(** X6: the block that parses and normalizes throws -- a SyntaxError when
    either body is no JSON document, a TypeError when the profile document
    is [null] or lacks the structure of the last name or, that one
    resolved, of the first name. *)
Theorem build_profile_rejects (profileBody emailBody : value) :
  (JSON_parse profileBody = None ->
   build_profile profileBody emailBody = Throw SyntaxError) /\
  (forall profileJson,
     JSON_parse profileBody = Some profileJson ->
     JSON_parse emailBody = None ->
     build_profile profileBody emailBody = Throw SyntaxError) /\
  (forall profileJson emailJson,
     JSON_parse profileBody = Some profileJson ->
     JSON_parse emailBody = Some emailJson ->
     (nullish profileJson = true ->
      build_profile profileBody emailBody = Throw (TypeError "id")) /\
     (nullish profileJson = false ->
      nullish (get_field profileJson "lastName") = true ->
      build_profile profileBody emailBody = Throw (TypeError "localized")) /\
     (forall familyName,
        nullish profileJson = false ->
        getLocalizedName (get_field profileJson "lastName") = Ok familyName ->
        nullish (get_field profileJson "firstName") = true ->
        build_profile profileBody emailBody =
        Throw (TypeError "localized"))).
Proof.
  unfold build_profile, parse. split; [| split].
  - intros ->. reflexivity.
  - intros profileJson -> ->. reflexivity.
  - intros profileJson emailJson -> ->. simpl. split; [| split].
    + intros H. now rewrite (prop_absent _ _ H).
    + intros H Hl. rewrite !(prop_present _ _ H). simpl.
      unfold getLocalizedName. now rewrite (prop_absent _ _ Hl).
    + intros familyName H Hl Hf. rewrite !(prop_present _ _ H). simpl.
      rewrite Hl. simpl.
      unfold getLocalizedName. now rewrite (prop_absent _ _ Hf).
Qed.

Lemma normalizer_frame (profile p1 p2 : list (string * value))
  (emailJson profileJson : value) (k : string) :
  addEmails profile emailJson = Ok p1 ->
  addPhotos p1 profileJson = Ok p2 ->
  ("emails" =? k) = false ->
  ("photos" =? k) = false ->
  lookup_field k p2 = lookup_field k profile.
Proof.
  intros He Hp Hk Hk'.
  destruct (addPhotos_result _ _ _ Hp) as [-> | [photos ->]];
    destruct (addEmails_result _ _ _ He) as [-> | [emails ->]];
    now rewrite ?(lookup_set_field_other _ _ _ _ Hk'),
                ?(lookup_set_field_other _ _ _ _ Hk).
Qed.

(** X7: a profile that the block builds is an object whose [provider] is
    'linkedin', whose [id] is the [id] of the parsed profile document,
    whose [name] holds the two resolved names, whose [displayName] is the
    given name, a space and the family name, whose [_raw] is the profile
    body as received and whose [_json] is the parsed document. *)
Theorem build_profile_fields (profileBody emailBody profile : value) :
  build_profile profileBody emailBody = Ok profile ->
  exists fields profileJson familyName givenName g f,
    profile = VObj fields /\
    JSON_parse profileBody = Some profileJson /\
    getLocalizedName (get_field profileJson "lastName") = Ok familyName /\
    getLocalizedName (get_field profileJson "firstName") = Ok givenName /\
    str_of givenName = Ok g /\
    str_of familyName = Ok f /\
    lookup_field "provider" fields = Some (VStr "linkedin") /\
    lookup_field "id" fields = Some (get_field profileJson "id") /\
    lookup_field "name" fields =
    Some (VObj [("familyName", familyName); ("givenName", givenName)]) /\
    lookup_field "displayName" fields = Some (VStr (g ++ " " ++ f)) /\
    lookup_field "_raw" fields = Some profileBody /\
    lookup_field "_json" fields = Some profileJson.
Proof.
  unfold build_profile, parse.
  destruct (JSON_parse profileBody) as [profileJson |]; simpl;
    [| discriminate].
  destruct (JSON_parse emailBody) as [emailJson |]; simpl; [| discriminate].
  unfold prop at 1.
  destruct (nullish profileJson) eqn:Hdoc; simpl; [discriminate |].
  rewrite !(prop_present _ _ Hdoc). simpl.
  destruct (getLocalizedName (get_field profileJson "lastName"))
    as [familyName |] eqn:Hl; simpl; [| discriminate].
  destruct (getLocalizedName (get_field profileJson "firstName"))
    as [givenName |] eqn:Hf; simpl; [| discriminate].
  destruct (str_of givenName) as [g |] eqn:Hg; simpl; [| discriminate].
  destruct (str_of familyName) as [f |] eqn:Hfam; simpl; [| discriminate].
  match goal with
  | |- rbind (addEmails ?base _) _ = _ -> _ =>
      set (start := base);
      destruct (addEmails start emailJson) as [p1 |] eqn:He; simpl;
        [| discriminate]
  end.
  destruct (addPhotos p1 profileJson) as [p2 |] eqn:Hp; simpl;
    [| discriminate].
  intros [= <-].
  exists (set_field "_json" profileJson (set_field "_raw" profileBody p2)),
    profileJson, familyName, givenName, g, f.
  assert (F : forall k,
             ("emails" =? k) = false -> ("photos" =? k) = false ->
             ("_raw" =? k) = false -> ("_json" =? k) = false ->
             lookup_field k
               (set_field "_json" profileJson
                  (set_field "_raw" profileBody p2)) =
             lookup_field k start).
  { intros k K1 K2 K3 K4.
    rewrite (lookup_set_field_other _ _ _ _ K4),
            (lookup_set_field_other _ _ _ _ K3).
    now apply (normalizer_frame start p1 p2 emailJson profileJson). }
  repeat split; try assumption;
    try (rewrite F by reflexivity; reflexivity).
  - rewrite lookup_set_field_other by reflexivity. apply lookup_set_field.
  - apply lookup_set_field.
Qed.

(* ------------------------------------------------------------------ *)
(** *** The runs of the fetch, of the gate and of authenticate *)

Lemma verified_eq (reply : list value) :
  verified reply = ([verdict reply], Ok VUndef).
Proof.
  unfold verified, verdict.
  destruct (truthy (arg 0 reply)); [reflexivity |].
  now destruct (truthy (arg 1 reply)).
Qed.

Lemma verify_call_eq (self : strategy) (req : request)
  (accessToken refreshToken : value) (args : list value) :
  truthy (arg 0 args) = false ->
  authenticate_loaded self req accessToken refreshToken args =
  (_ <- emit (VerifyCall (passed_request self req) accessToken refreshToken
                (arg 1 args)) ;;
   _ <- _verify self (verify_arguments self req accessToken refreshToken
                        (arg 1 args) verified) ;;
   ret VUndef).
Proof.
  intros H. unfold authenticate_loaded, passed_request, verify_arguments.
  rewrite H. now destruct (truthy (_passReqToCallback self)).
Qed.

Lemma verify_arguments_last (self : strategy) (req : request)
  (accessToken refreshToken profile : value) (cb : list value -> M value) :
  exists pre,
    verify_arguments self req accessToken refreshToken profile cb =
    (pre ++ [ACb cb])%list /\
    forall cb',
      verify_arguments self req accessToken refreshToken profile cb' =
      (pre ++ [ACb cb'])%list.
Proof.
  unfold verify_arguments. destruct (truthy (_passReqToCallback self)).
  - now exists [AReq req; AVal accessToken; AVal refreshToken; AVal profile].
  - now exists [AVal accessToken; AVal refreshToken; AVal profile].
Qed.

(** The callback of [authenticate]: one [fail], or the verify call and
    the sink call that its answer decides. *)
Lemma authenticate_loaded_shape (self : strategy) (req : request)
  (accessToken refreshToken : value) (args : list value) :
  calls_back_once (_verify self) ->
  (authenticate_loaded self req accessToken refreshToken args =
   ([SinkFail [arg 0 args]], Ok VUndef) /\ truthy (arg 0 args) = true) \/
  (exists reply,
     (forall cb,
        _verify self
          (verify_arguments self req accessToken refreshToken (arg 1 args) cb)
        = cb reply) /\
     authenticate_loaded self req accessToken refreshToken args =
     ([VerifyCall (passed_request self req) accessToken refreshToken
         (arg 1 args); verdict reply], Ok VUndef) /\
     truthy (arg 0 args) = false).
Proof.
  intros Hv. destruct (truthy (arg 0 args)) eqn:E.
  - left. split; [| reflexivity]. unfold authenticate_loaded. now rewrite E.
  - right. rewrite (verify_call_eq _ _ _ _ _ E).
    destruct (verify_arguments_last self req accessToken refreshToken
                (arg 1 args) verified) as (pre & Hpre & Hall).
    destruct (Hv pre) as [reply Hr]. exists reply.
    split; [intros cb; now rewrite Hall | ].
    rewrite Hpre, Hr, verified_eq. now split.
Qed.

Lemma run_of_done (done : list value -> M value) (args : list value) :
  always_returns done ->
  exists v, done args = (trace (done args), Ok v).
Proof.
  intros H. destruct (H args) as [v Hv]. exists v.
  destruct (done args) as [t r]. unfold result in Hv. simpl in *. now subst.
Qed.

(** The fetch calls [done] once, after the profile GET alone or after both
    GETs. *)
Lemma userProfile_shape (self : strategy) (accessToken : value)
  (done : list value -> M value) :
  calls_back_once (get (_oauth2 self)) ->
  returns_value (setAccessTokenName (_oauth2 self)) ->
  always_returns done ->
  exists f args,
    (f = [SetAccessTokenName [VStr "oauth2_access_token"];
          HttpGet (profileUrl self) accessToken] \/
     f = [SetAccessTokenName [VStr "oauth2_access_token"];
          HttpGet (profileUrl self) accessToken;
          HttpGet (emailUrl self) accessToken]) /\
    userProfile self accessToken done =
    ((f ++ trace (done args))%list, Ok VUndef).
Proof.
  intros Hg Hs Hd. unfold userProfile, call_get.
  destruct (Hs [AVal (VStr "oauth2_access_token")]) as [v Hv]. rewrite Hv.
  destruct (Hg [AVal (profileUrl self); AVal accessToken]) as [pr Hpr].
  simpl in Hpr. rewrite Hpr. unfold userProfile_profile, call_get.
  destruct (truthy (arg 0 pr)).
  { eexists _, _. split; [left; reflexivity |].
    destruct (run_of_done done
                [InternalOAuthError "failed to fetch user profile" (arg 0 pr)]
                Hd) as [w ->].
    simpl. now rewrite app_nil_r. }
  destruct (Hg [AVal (emailUrl self); AVal accessToken]) as [er Her].
  simpl in Her. rewrite Her. unfold userProfile_email.
  destruct (truthy (arg 0 er)).
  { eexists _, _. split; [right; reflexivity |].
    destruct (run_of_done done
                [InternalOAuthError "failed to fetch user email" (arg 0 er)]
                Hd) as [w ->].
    simpl. now rewrite !app_nil_r. }
  destruct (build_profile (arg 1 pr) (arg 1 er)) as [profile | e].
  - rewrite bind_lift_ok.
    destruct (run_of_done done [VNull; profile] Hd) as [w Hw].
    rewrite (try_catch_returns _ _ w) by (rewrite Hw; reflexivity).
    eexists _, [VNull; profile]. split; [right; reflexivity |].
    rewrite Hw. simpl. now rewrite !app_nil_r.
  - rewrite bind_lift_throw, try_catch_thrown.
    destruct (run_of_done done [e] Hd) as [w Hw].
    eexists _, [e]. split; [right; reflexivity |].
    rewrite Hw. simpl. now rewrite !app_nil_r.
Qed.

(** X8: with an HTTP capability that answers every GET once and a [done]
    that returns, [userProfile] names the token, issues the profile GET
    alone or the profile GET followed by the email GET, both with the access
    token, then calls [done] exactly once, and returns. *)
Theorem userProfile_calls_done_once (self : strategy) (accessToken : value)
  (done : list value -> M value) :
  calls_back_once (get (_oauth2 self)) ->
  returns_value (setAccessTokenName (_oauth2 self)) ->
  always_returns done ->
  exists args,
    (trace (userProfile self accessToken done) =
     ([SetAccessTokenName [VStr "oauth2_access_token"];
       HttpGet (profileUrl self) accessToken] ++ trace (done args))%list \/
     trace (userProfile self accessToken done) =
     ([SetAccessTokenName [VStr "oauth2_access_token"];
       HttpGet (profileUrl self) accessToken;
       HttpGet (emailUrl self) accessToken] ++ trace (done args))%list) /\
    result (userProfile self accessToken done) = Ok VUndef.
Proof.
  intros Hg Hs Hd.
  destruct (userProfile_shape self accessToken done Hg Hs Hd)
    as (f & args & [-> | ->] & ->); exists args; split; auto.
Qed.

(** The gate calls [done] once, after the predicate and the fetch if
    any. *)
Lemma loadUserProfile_shape (self : strategy) (accessToken : value)
  (done : list value -> M value) :
  calls_back_once (get (_oauth2 self)) ->
  returns_value (setAccessTokenName (_oauth2 self)) ->
  skip_well_behaved (_skipUserProfile self) ->
  always_returns done ->
  exists g f args v,
    gate_prefix accessToken g /\
    fetch_prefix self accessToken f /\
    _loadUserProfile self accessToken done =
    ((g ++ f ++ trace (done args))%list, Ok v).
Proof.
  intros Hg Hs Hk Hd.
  assert (Hload : exists f args,
            fetch_prefix self accessToken f /\
            loadIt self accessToken done =
            ((f ++ trace (done args))%list, Ok VUndef)).
  { destruct (userProfile_shape self accessToken done Hg Hs Hd)
      as (f & args & Hf & E).
    exists f, args. split; [right; exact Hf | exact E]. }
  assert (Hskip : exists f args v,
            fetch_prefix self accessToken f /\
            skipIt done = ((f ++ trace (done args))%list, Ok v)).
  { destruct (run_of_done done [VNull] Hd) as [w Hw].
    exists [], [VNull], w. split; [now left | exact Hw]. }
  destruct Hload as (fl & al & Hfl & El).
  destruct Hskip as (fs & as' & vs & Hfs & Es).
  unfold _loadUserProfile.
  destruct (_skipUserProfile self) as [v | n p]; simpl in Hk.
  - exists []. destruct (truthy v); simpl.
    + exists fs, as', vs. repeat split; [now left | exact Hfs | exact Es].
    + exists fl, al, VUndef. repeat split; [now left | exact Hfl | exact El].
  - destruct (1 <? n)%nat.
    + destruct (Hk [AVal accessToken]) as [reply Hr]. simpl in Hr.
      rewrite Hr. unfold loadUserProfile_async.
      exists [SkipPredicate [accessToken]].
      destruct (truthy (arg 0 reply)).
      { destruct (run_of_done done [arg 0 reply] Hd) as [w Hw].
        exists [], [arg 0 reply], VUndef.
        repeat split; [right; now right | now left |].
        rewrite Hw. simpl. now rewrite app_nil_r. }
      destruct (truthy (arg 1 reply)); simpl.
      * exists fs, as', VUndef.
        repeat split; [right; now right | exact Hfs |].
        rewrite Es. simpl. now rewrite app_nil_r.
      * exists fl, al, VUndef.
        repeat split; [right; now right | exact Hfl |].
        rewrite El. simpl. now rewrite app_nil_r.
    + destruct (Hk []) as [v Hv]. rewrite Hv. simpl.
      exists [SkipPredicate []].
      destruct (truthy v); simpl.
      * exists fs, as', vs.
        repeat split; [right; now left | exact Hfs |].
        now rewrite Es.
      * exists fl, al, VUndef.
        repeat split; [right; now left | exact Hfl |].
        now rewrite El.
Qed.

Lemma authenticate_loaded_returns (self : strategy) (req : request)
  (accessToken refreshToken : value) :
  calls_back_once (_verify self) ->
  always_returns (authenticate_loaded self req accessToken refreshToken).
Proof.
  intros Hv args.
  destruct (authenticate_loaded_shape self req accessToken refreshToken args
              Hv) as [[-> _] | (reply & _ & -> & _)]; now exists VUndef.
Qed.

(** X9: for a request that has a query and headers, and with collaborators
    that each call back once, a run of [authenticate] is either the single
    call [fail()], or: at most one call of the skip predicate; then nothing,
    or the naming of the token and the profile GET, or these and the email
    GET, each GET with the selected access token; then either [fail(err)]
    for the error of the load, or the call of the verify callback with the
    selected tokens followed by the one sink call that the answer [reply]
    of the verify callback to that very call decides ([verdict reply]).
    So the sink call comes last, [error] and [success] come only right after
    the verify call, and there are never more than two GETs. *)
Theorem authenticate_run_shape (self : strategy) (req : request)
  (options : value) :
  well_behaved self ->
  nullish (query req) = false ->
  nullish (headers req) = false ->
  exists accessToken refreshToken,
    extract_tokens req = Ok (accessToken, refreshToken) /\
    (trace (authenticate self req options) = [SinkFail []] \/
     exists g f,
       gate_prefix accessToken g /\
       fetch_prefix self accessToken f /\
       ((exists err,
           truthy err = true /\
           trace (authenticate self req options) =
           (g ++ f ++ [SinkFail [err]])%list) \/
        (exists profile reply,
           (forall cb,
              _verify self
                (verify_arguments self req accessToken refreshToken profile
                   cb) = cb reply) /\
           trace (authenticate self req options) =
           (g ++ f ++
            [VerifyCall (passed_request self req) accessToken refreshToken
               profile; verdict reply])%list))).
Proof.
  intros (Hv & Hg & Hs & Hk) Hq Hh.
  rewrite authenticate_eq.
  pose proof (extract_tokens_present _ Hq Hh) as He.
  destruct (extract_tokens req) as [[accessToken refreshToken] | e] eqn:Hx;
    [| discriminate].
  exists accessToken, refreshToken. split; [reflexivity |].
  destruct (denied req); [now left |].
  rewrite bind_lift_ok. simpl fst. simpl snd.
  destruct (truthy accessToken); simpl; [| now left].
  right.
  destruct (loadUserProfile_shape self accessToken
              (authenticate_loaded self req accessToken refreshToken)
              Hg Hs Hk (authenticate_loaded_returns _ _ _ _ Hv))
    as (g & f & args & v & Hgp & Hfp & ->).
  exists g, f. split; [exact Hgp |]. split; [exact Hfp |].
  unfold trace at 2 4. simpl. rewrite app_nil_r.
  destruct (authenticate_loaded_shape self req accessToken refreshToken args
              Hv) as [[-> Ht] | (reply & Hreply & -> & _)].
  - left. now exists (arg 0 args).
  - right. exists (arg 1 args), reply. now split.
Qed.

(** X10: when the profile is not skipped, both GETs are answered without
    error, the two bodies normalize to [profile] and the verify callback
    answers once, [authenticate] names the token, GETs the profile URL and
    then the email URL with the selected access token, calls the verify
    callback with the selected tokens and [profile] -- the request first
    when [passReqToCallback] is truthy -- and ends with the sink call that
    the answer decides: [error(err)] for a truthy [err], otherwise
    [success(user, info)] for a truthy [user], otherwise [fail(info)]. *)
Theorem authenticate_loaded_profile_run (self : strategy) (req : request)
  (options accessToken refreshToken skip profile : value)
  (profileReply emailReply reply : list value) :
  denied req = false ->
  extract_tokens req = Ok (accessToken, refreshToken) ->
  truthy accessToken = true ->
  _skipUserProfile self = SkipValue skip ->
  truthy skip = false ->
  returns_value (setAccessTokenName (_oauth2 self)) ->
  (forall cb,
     get (_oauth2 self) [AVal (profileUrl self); AVal accessToken; ACb cb] =
     cb profileReply) ->
  truthy (arg 0 profileReply) = false ->
  (forall cb,
     get (_oauth2 self) [AVal (emailUrl self); AVal accessToken; ACb cb] =
     cb emailReply) ->
  truthy (arg 0 emailReply) = false ->
  build_profile (arg 1 profileReply) (arg 1 emailReply) = Ok profile ->
  (forall cb,
     _verify self
       (verify_arguments self req accessToken refreshToken profile cb) =
     cb reply) ->
  authenticate self req options =
  ([SetAccessTokenName [VStr "oauth2_access_token"];
    HttpGet (profileUrl self) accessToken;
    HttpGet (emailUrl self) accessToken;
    VerifyCall (passed_request self req) accessToken refreshToken profile;
    verdict reply], Ok VUndef).
Proof.
  intros Hd Hx Ht Hk Hskip Hs Hp Hpe He Hee Hb Hv.
  rewrite (authenticate_loads _ _ _ _ _ Hd Hx Ht).
  unfold _loadUserProfile. rewrite Hk, Hskip. simpl negb. cbv iota.
  unfold loadIt, userProfile, call_get.
  destruct (Hs [AVal (VStr "oauth2_access_token")]) as [v ->].
  rewrite Hp. unfold userProfile_profile, call_get. rewrite Hpe, He.
  unfold userProfile_email. rewrite Hee, Hb, bind_lift_ok.
  rewrite verify_call_eq by reflexivity.
  change (arg 1 [VNull; profile]) with profile.
  rewrite Hv, verified_eq. reflexivity.
Qed.

(** X11: what the [try]/[catch] of [userProfile] does once both GETs are
    answered without error.  When parsing or normalizing throws [e], [done]
    is called once, with [e] as it was thrown.  When the profile is built
    but [done(null, profile)] itself throws [e], [done] is called a second
    time, with [e]. *)
Theorem userProfile_catch (self : strategy) (accessToken : value)
  (done : list value -> M value) (profileReply emailReply : list value) :
  returns_value (setAccessTokenName (_oauth2 self)) ->
  (forall cb,
     get (_oauth2 self) [AVal (profileUrl self); AVal accessToken; ACb cb] =
     cb profileReply) ->
  truthy (arg 0 profileReply) = false ->
  (forall cb,
     get (_oauth2 self) [AVal (emailUrl self); AVal accessToken; ACb cb] =
     cb emailReply) ->
  truthy (arg 0 emailReply) = false ->
  (forall e,
     build_profile (arg 1 profileReply) (arg 1 emailReply) = Throw e ->
     userProfile self accessToken done =
     (_ <- ([SetAccessTokenName [VStr "oauth2_access_token"];
             HttpGet (profileUrl self) accessToken;
             HttpGet (emailUrl self) accessToken], Ok tt) ;;
      _ <- done [e] ;;
      ret VUndef)) /\
  (forall profile t e,
     build_profile (arg 1 profileReply) (arg 1 emailReply) = Ok profile ->
     done [VNull; profile] = (t, Throw e) ->
     userProfile self accessToken done =
     (_ <- ([SetAccessTokenName [VStr "oauth2_access_token"];
             HttpGet (profileUrl self) accessToken;
             HttpGet (emailUrl self) accessToken] ++ t, Ok tt)%list ;;
      _ <- done [e] ;;
      ret VUndef)).
Proof.
  intros Hs Hp Hpe He Hee.
  destruct (Hs [AVal (VStr "oauth2_access_token")]) as [v Hv].
  split.
  - intros e Hb. unfold userProfile, call_get. rewrite Hv, Hp.
    unfold userProfile_profile, call_get. rewrite Hpe, He.
    unfold userProfile_email. rewrite Hee, Hb.
    rewrite bind_lift_throw, try_catch_thrown.
    destruct (done [e]) as [t' [w | e']]; simpl; now rewrite ?app_nil_r.
  - intros profile t e Hb Hdone. unfold userProfile, call_get.
    rewrite Hv, Hp.
    unfold userProfile_profile, call_get. rewrite Hpe, He.
    unfold userProfile_email. rewrite Hee, Hb, bind_lift_ok, Hdone.
    unfold try_catch.
    destruct (done [e]) as [t' [w | e']]; simpl; now rewrite ?app_nil_r.
Qed.

(** X12: when the profile has been loaded and the verify callback throws a
    truthy [e] instead of answering, the exception is caught by
    [userProfile] and handed back to the callback of [authenticate], which
    reports [fail(e)]; [authenticate] returns. *)
Theorem verify_exception_after_load (self : strategy) (req : request)
  (options accessToken refreshToken skip profile e : value)
  (profileReply emailReply : list value) (t : list Event) :
  denied req = false ->
  extract_tokens req = Ok (accessToken, refreshToken) ->
  truthy accessToken = true ->
  _skipUserProfile self = SkipValue skip ->
  truthy skip = false ->
  returns_value (setAccessTokenName (_oauth2 self)) ->
  (forall cb,
     get (_oauth2 self) [AVal (profileUrl self); AVal accessToken; ACb cb] =
     cb profileReply) ->
  truthy (arg 0 profileReply) = false ->
  (forall cb,
     get (_oauth2 self) [AVal (emailUrl self); AVal accessToken; ACb cb] =
     cb emailReply) ->
  truthy (arg 0 emailReply) = false ->
  build_profile (arg 1 profileReply) (arg 1 emailReply) = Ok profile ->
  _verify self
    (verify_arguments self req accessToken refreshToken profile verified) =
  (t, Throw e) ->
  truthy e = true ->
  authenticate self req options =
  (([SetAccessTokenName [VStr "oauth2_access_token"];
     HttpGet (profileUrl self) accessToken;
     HttpGet (emailUrl self) accessToken;
     VerifyCall (passed_request self req) accessToken refreshToken profile]
    ++ t ++ [SinkFail [e]])%list, Ok VUndef).
Proof.
  intros Hd Hx Ht Hk Hskip Hs Hp Hpe He Hee Hb Hv Hte.
  rewrite (authenticate_loads _ _ _ _ _ Hd Hx Ht).
  unfold _loadUserProfile. rewrite Hk, Hskip. simpl negb. cbv iota.
  unfold loadIt, userProfile, call_get.
  destruct (Hs [AVal (VStr "oauth2_access_token")]) as [v ->].
  rewrite Hp. unfold userProfile_profile, call_get. rewrite Hpe, He.
  unfold userProfile_email. rewrite Hee, Hb, bind_lift_ok.
  rewrite verify_call_eq by reflexivity.
  change (arg 1 [VNull; profile]) with profile.
  rewrite Hv.
  assert (Hfail : authenticate_loaded self req accessToken refreshToken [e] =
                  ([SinkFail [e]], Ok VUndef)).
  { unfold authenticate_loaded. change (arg 0 [e]) with e. now rewrite Hte. }
  simpl. rewrite Hfail. simpl. now rewrite !app_nil_r.
Qed.


(** X14: when an asynchronous skip predicate (a function of two or more
    parameters) is called with the access token and answers with a truthy
    error, [authenticate] reports [fail(err)] right away, whatever the
    predicate answers for [skip]: no GET is issued and the verify callback
    is not called. *)
Theorem async_gate_error_run (self : strategy) (req : request)
  (options accessToken refreshToken : value) (n : nat) (predicate : jsfun)
  (reply : list value) :
  denied req = false ->
  extract_tokens req = Ok (accessToken, refreshToken) ->
  truthy accessToken = true ->
  _skipUserProfile self = SkipFunction n predicate ->
  (2 <= n)%nat ->
  (forall cb, predicate [AVal accessToken; ACb cb] = cb reply) ->
  truthy (arg 0 reply) = true ->
  authenticate self req options =
  ([SkipPredicate [accessToken]; SinkFail [arg 0 reply]], Ok VUndef).
Proof.
  intros Hd Hx Ht Hk Hn Hp He.
  rewrite (authenticate_loads _ _ _ _ _ Hd Hx Ht).
  unfold _loadUserProfile. rewrite Hk.
  replace (1 <? n)%nat with true by (symmetry; apply Nat.ltb_lt; lia).
  rewrite Hp. unfold loadUserProfile_async. rewrite He.
  unfold authenticate_loaded. change (arg 0 [arg 0 reply]) with (arg 0 reply).
  now rewrite He.
Qed.

(** X15: a failure of the load step ends the request in [fail] before the
    verify callback is called.  When the profile GET is answered with a
    truthy error, [authenticate] issues that GET only and reports the error
    wrapped as 'failed to fetch user profile'; when the email GET is, it
    reports the error wrapped as 'failed to fetch user email'; when parsing
    or normalizing throws a truthy [e], it reports [e] as thrown. *)
Theorem load_failure_run (self : strategy) (req : request)
  (options accessToken refreshToken skip : value)
  (profileReply : list value) :
  denied req = false ->
  extract_tokens req = Ok (accessToken, refreshToken) ->
  truthy accessToken = true ->
  _skipUserProfile self = SkipValue skip ->
  truthy skip = false ->
  returns_value (setAccessTokenName (_oauth2 self)) ->
  (forall cb,
     get (_oauth2 self) [AVal (profileUrl self); AVal accessToken; ACb cb] =
     cb profileReply) ->
  (truthy (arg 0 profileReply) = true ->
   authenticate self req options =
   ([SetAccessTokenName [VStr "oauth2_access_token"];
     HttpGet (profileUrl self) accessToken;
     SinkFail [InternalOAuthError "failed to fetch user profile"
                 (arg 0 profileReply)]], Ok VUndef)) /\
  (forall emailReply,
     truthy (arg 0 profileReply) = false ->
     (forall cb,
        get (_oauth2 self) [AVal (emailUrl self); AVal accessToken; ACb cb] =
        cb emailReply) ->
     (truthy (arg 0 emailReply) = true ->
      authenticate self req options =
      ([SetAccessTokenName [VStr "oauth2_access_token"];
        HttpGet (profileUrl self) accessToken;
        HttpGet (emailUrl self) accessToken;
        SinkFail [InternalOAuthError "failed to fetch user email"
                    (arg 0 emailReply)]], Ok VUndef)) /\
     (forall e,
        truthy (arg 0 emailReply) = false ->
        build_profile (arg 1 profileReply) (arg 1 emailReply) = Throw e ->
        truthy e = true ->
        authenticate self req options =
        ([SetAccessTokenName [VStr "oauth2_access_token"];
          HttpGet (profileUrl self) accessToken;
          HttpGet (emailUrl self) accessToken;
          SinkFail [e]], Ok VUndef))).
Proof.
  intros Hd Hx Ht Hk Hskip Hs Hp.
  rewrite (authenticate_loads _ _ _ _ _ Hd Hx Ht).
  unfold _loadUserProfile. rewrite Hk, Hskip. simpl negb. cbv iota.
  unfold loadIt, userProfile, call_get.
  destruct (Hs [AVal (VStr "oauth2_access_token")]) as [v ->].
  rewrite Hp. unfold userProfile_profile, call_get.
  split.
  - intros Hpe. rewrite Hpe. unfold authenticate_loaded.
    change (arg 0 [InternalOAuthError "failed to fetch user profile"
                     (arg 0 profileReply)])
      with (InternalOAuthError "failed to fetch user profile"
              (arg 0 profileReply)).
    reflexivity.
  - intros emailReply Hpe He. rewrite Hpe, He. unfold userProfile_email.
    split.
    + intros Hee. rewrite Hee. reflexivity.
    + intros e Hee Hb Hte. rewrite Hee, Hb.
      rewrite bind_lift_throw, try_catch_thrown.
      unfold authenticate_loaded. change (arg 0 [e]) with e.
      now rewrite Hte.
Qed.

End Claims.

(* ================================================================== *)
(** ** The statements on the fixtures *)
(* ================================================================== *)

Lemma last_callback_last (pre : list jsarg) (cb : list value -> M value) :
  last_callback (pre ++ [ACb cb]) = Some cb.
Proof.
  induction pre as [| a rest IH]; [reflexivity |].
  simpl. destruct (rest ++ [ACb cb])%list eqn:E; [| exact IH].
  now destruct rest.
Qed.

Lemma answer_calls_back_once (reply : list jsarg -> list value) :
  calls_back_once (answer reply).
Proof.
  intros pre. exists (reply pre). intros cb. unfold answer.
  now rewrite last_callback_last, removelast_last.
Qed.

Lemma returning_returns_value (v : value) : returns_value (returning v).
Proof. intros args. now exists v. Qed.

Lemma stub_strategy_well_behaved (skip : skip_setting)
  (profile email : list value) :
  skip_well_behaved skip ->
  well_behaved (stub_strategy skip profile email).
Proof.
  intros Hk. repeat split.
  - apply answer_calls_back_once.
  - apply answer_calls_back_once.
  - apply returning_returns_value.
  - exact Hk.
Qed.

Lemma tina_strategy_well_behaved : well_behaved tina_strategy.
Proof. now apply stub_strategy_well_behaved. Qed.

(** The end-to-end scenario of the specification: the token in the query
    string, both documents fetched, the user accepted. *)
Example tina_authenticates :
  sink_calls (trace (@authenticate tina_engine tina_strategy
                       (query_request "tok123") VUndef)) =
  [SinkSuccess [the_user; VUndef]] /\
  http_calls (trace (@authenticate tina_engine tina_strategy
                       (query_request "tok123") VUndef)) =
  [HttpGet (VStr "profile-url") (VStr "tok123");
   HttpGet (VStr "email-url") (VStr "tok123")].
Proof. split; reflexivity. Qed.

Example tina_normalized :
  exists fields,
    @build_profile tina_engine (VStr "profile-body") (VStr "email-body") =
    Ok (VObj fields) /\
    lookup_field "id" fields = Some (VStr "42") /\
    lookup_field "displayName" fields = Some (VStr "Tina Belcher") /\
    lookup_field "emails" fields =
    Some (VArr [VObj [("value", VStr "tina@example.com")]]) /\
    lookup_field "photos" fields = None.
Proof. eexists. repeat split. Qed.

(* ------------------------------------------------------------------ *)
(** *** C1 *)

Lemma load_error_goes_to_fail_witness :
  truthy transport_failure = true /\
  authenticate_loaded failing_strategy (query_request "tok123")
    (VStr "tok123") VUndef [transport_failure] =
  ([SinkFail [transport_failure]], Ok VUndef).
Proof.
  split; [reflexivity |].
  apply load_error_goes_to_fail. reflexivity.
Defined.

(** C1, as stated, fails: a transport error, a parse error and a gate error
    each end in [fail(err)], and [error] is not called. *)
Lemma load_error_not_sent_to_error :
  sink_calls (trace (@authenticate tina_engine failing_strategy
                       (query_request "tok123") VUndef)) =
  [SinkFail [InternalOAuthError "failed to fetch user profile"
               transport_failure]] /\
  sink_calls (trace (@authenticate tina_engine garbled_strategy
                       (query_request "tok123") VUndef)) =
  [SinkFail [SyntaxError]] /\
  sink_calls (trace (@authenticate tina_engine gate_error_strategy
                       (query_request "tok123") VUndef)) =
  [SinkFail [VStr "gate down"]] /\
  ~ In (SinkError [InternalOAuthError "failed to fetch user profile"
                     transport_failure])
       (trace (@authenticate tina_engine failing_strategy
                 (query_request "tok123") VUndef)).
Proof.
  repeat split.
  intros H. vm_compute in H.
  repeat (destruct H as [H | H]; [discriminate H |]). exact H.
Qed.

(* ------------------------------------------------------------------ *)
(** *** C2 *)

Lemma exactly_one_sink_call_witness :
  well_behaved tina_strategy /\
  nullish (query (query_request "tok123")) = false /\
  nullish (headers (query_request "tok123")) = false /\
  exists ev : Event,
    sink_calls (trace (@authenticate tina_engine tina_strategy
                         (query_request "tok123") VUndef)) = [ev] /\
    result (@authenticate tina_engine tina_strategy
              (query_request "tok123") VUndef) = Ok VUndef.
Proof.
  split; [exact tina_strategy_well_behaved |].
  split; [reflexivity |]. split; [reflexivity |].
  apply exactly_one_sink_call;
    [exact tina_strategy_well_behaved | reflexivity | reflexivity].
Defined.

(** C2, as stated, fails: on a request without query (and without a body
    token) [authenticate] throws while it resolves the access token, and no
    sink is called, although every collaborator is well behaved.  Nor does
    the count hold for every verify callback: one that never answers leaves
    the request without a sink call, one that answers twice causes two. *)
Lemma no_sink_call_without_query :
  well_behaved tina_strategy /\
  @authenticate tina_engine tina_strategy bare_request VUndef =
  ([], Throw (TypeError "access_token")) /\
  sink_calls (trace (@authenticate tina_engine tina_strategy
                       bare_request VUndef)) = [] /\
  sink_calls (trace (@authenticate tina_engine
                       (with_verify silent_verify tina_strategy)
                       (query_request "tok123") VUndef)) = [] /\
  sink_calls (trace (@authenticate tina_engine
                       (with_verify eager_verify tina_strategy)
                       (query_request "tok123") VUndef)) =
  [SinkSuccess [the_user; VUndef]; SinkSuccess [the_user; VUndef]].
Proof.
  split; [exact tina_strategy_well_behaved |]. repeat split.
Qed.

(** A verify callback that answers once and then throws is not well
    behaved: its exception reaches the [catch] of [userProfile], which calls
    back a second time. *)
Example answer_then_throw_calls_two_sinks :
  sink_calls (trace (@authenticate tina_engine
                       (with_verify accepting_then_throwing tina_strategy)
                       (query_request "tok123") VUndef)) =
  [SinkSuccess [the_user; VUndef]; SinkFail [boom]].
Proof. reflexivity. Qed.

(* ------------------------------------------------------------------ *)
(** *** C3 *)

(** C3, as stated, fails: on a request without a query object whose only
    access token is in the headers, neither body nor query holds a value,
    and the header value is not selected: reading the query tier throws. *)
Lemma header_token_without_query_throws :
  truthy (from_body header_only_request "access_token") = false /\
  nullish (query header_only_request) = true /\
  get_field (headers header_only_request) "access_token" = VStr "h-at" /\
  select_token (from_body header_only_request "access_token")
    header_only_request "access_token" = Throw (TypeError "access_token") /\
  extract_tokens header_only_request = Throw (TypeError "access_token") /\
  @authenticate tina_engine tina_strategy header_only_request VUndef =
  ([], Throw (TypeError "access_token")).
Proof. repeat split. Qed.

Lemma token_precedence_witness :
  select_token (VStr "b-at") bare_request "access_token" = Ok (VStr "b-at") /\
  select_token VUndef three_tier_request "access_token" = Ok (VStr "q-at") /\
  select_token VUndef
    {| body := VUndef; query := VObj []; headers := headers three_tier_request |}
    "refresh_token" = Ok (VStr "h-rt") /\
  extract_tokens three_tier_request = Ok (VStr "b-at", VStr "b-rt").
Proof.
  split; [| split; [| split]].
  - apply (proj1 (token_precedence bare_request "access_token" (VStr "b-at"))).
    reflexivity.
  - apply (proj1 (proj2 (token_precedence three_tier_request "access_token"
                           VUndef))); reflexivity.
  - apply (proj1 (proj2 (proj2 (token_precedence
             {| body := VUndef; query := VObj [];
                headers := headers three_tier_request |}
             "refresh_token" VUndef)))); reflexivity.
  - apply (proj2 (proj2 (proj2 (token_precedence three_tier_request
                                  "access_token" VUndef)))); reflexivity.
Defined.

(* ------------------------------------------------------------------ *)
(** *** C4 *)

Lemma local_rejection_fails_witness :
  (@authenticate tina_engine tina_strategy denied_request VUndef =
   ([SinkFail []], Ok VUndef) /\
   http_calls (trace (@authenticate tina_engine tina_strategy
                        denied_request VUndef)) = []) /\
  (@authenticate tina_engine tina_strategy tokenless_request VUndef =
   ([SinkFail []], Ok VUndef) /\
   http_calls (trace (@authenticate tina_engine tina_strategy
                        tokenless_request VUndef)) = []).
Proof.
  split.
  - destruct (@local_rejection_fails tina_engine tina_strategy denied_request
                VUndef) as (E & _ & Hh).
    + left. split; reflexivity.
    + split; [exact E | exact Hh].
  - destruct (@local_rejection_fails tina_engine tina_strategy
                tokenless_request VUndef) as (E & _ & Hh).
    + right. repeat split; reflexivity.
    + split; [exact E | exact Hh].
Defined.

(** C4, as stated, fails: a request that holds no access token in body and
    headers and has no query object resolves no token, yet it does not end
    in [fail]: reading the query tier throws, and no sink is called. *)
Lemma tokenless_request_without_query_throws :
  truthy (from_body queryless_request "access_token") = false /\
  truthy (get_field (query queryless_request) "access_token") = false /\
  truthy (get_field (headers queryless_request) "access_token") = false /\
  @authenticate tina_engine tina_strategy queryless_request VUndef =
  ([], Throw (TypeError "access_token")) /\
  sink_calls (trace (@authenticate tina_engine tina_strategy
                       queryless_request VUndef)) = [].
Proof. repeat split. Qed.

(* ------------------------------------------------------------------ *)
(** *** C5 *)

Lemma profile_then_email_witness :
  @userProfile tina_engine failing_strategy (VStr "tok123") self_fail =
  ([SetAccessTokenName [VStr "oauth2_access_token"];
    HttpGet (VStr "profile-url") (VStr "tok123");
    SinkFail [InternalOAuthError "failed to fetch user profile"
                transport_failure]], Ok VUndef) /\
  @userProfile tina_engine email_failing_strategy (VStr "tok123") self_fail =
  ([SetAccessTokenName [VStr "oauth2_access_token"];
    HttpGet (VStr "profile-url") (VStr "tok123");
    HttpGet (VStr "email-url") (VStr "tok123");
    SinkFail [InternalOAuthError "failed to fetch user email"
                transport_failure]], Ok VUndef).
Proof.
  split.
  - apply (proj1 (@profile_then_email tina_engine failing_strategy
                    (VStr "tok123") self_fail
                    (returning_returns_value VUndef))
             [transport_failure]);
      [reflexivity | intros cb; reflexivity].
  - apply (proj2 (@profile_then_email tina_engine email_failing_strategy
                    (VStr "tok123") self_fail
                    (returning_returns_value VUndef))
             [VNull; VStr "profile-body"] [transport_failure]);
      [reflexivity | reflexivity
       | intros cb; reflexivity | intros cb; reflexivity].
Defined.

(* ------------------------------------------------------------------ *)
(** *** C6 *)

Lemma emails_absent_or_listed_witness :
  addEmails [("provider", VStr "linkedin")] empty_email =
  Ok [("provider", VStr "linkedin")] /\
  addEmails [("provider", VStr "linkedin")] two_address_email =
  Ok [("provider", VStr "linkedin");
      ("emails", VArr [VObj [("value", VStr "first@example.com")];
                       VObj [("value", VStr "second@example.com")]])] /\
  addEmails [("provider", VStr "linkedin")] unusable_email =
  Ok [("provider", VStr "linkedin"); ("emails", VArr [])].
Proof.
  split; [| split].
  - apply (proj1 (emails_absent_or_listed
                    [("provider", VStr "linkedin")] empty_email) []);
      reflexivity.
  - exact (proj1 (proj2 (proj2 (emails_absent_or_listed
                    [("provider", VStr "linkedin")] two_address_email))
                    _ eq_refl eq_refl eq_refl)).
  - destruct (proj2 (proj2 (emails_absent_or_listed
                       [("provider", VStr "linkedin")] unusable_email))
                _ eq_refl eq_refl eq_refl) as (E & _ & Hempty).
    rewrite (Hempty eq_refl) in E. exact E.
Defined.

(** C6, as stated, fails: a list whose only entry is [null] yields no usable
    entry, yet [emails] is not set to the empty list: reading the entry
    throws; and a [null] email document throws as well instead of leaving
    [emails] out. *)
Lemma null_entry_breaks_asymmetry :
  usable_addresses [VNull] = [] /\
  addEmails [("provider", VStr "linkedin")] null_only_email =
  Throw (TypeError "handle~") /\
  addEmails [("provider", VStr "linkedin")] null_only_email <>
  Ok [("provider", VStr "linkedin"); ("emails", VArr [])] /\
  addEmails [("provider", VStr "linkedin")] VNull =
  Throw (TypeError "elements").
Proof.
  split; [reflexivity |]. split; [reflexivity |].
  split; [discriminate | reflexivity].
Qed.

(** A [null] entry of the list is read without a guard. *)
Example null_email_entry_throws :
  addEmails [("provider", VStr "linkedin")] (VObj [("elements", VArr [VNull])])
  = Throw (TypeError "handle~").
Proof. reflexivity. Qed.

(* ------------------------------------------------------------------ *)
(** *** C7 *)

Lemma photos_first_identifier_of_each_witness :
  @addPhotos tina_engine [("provider", VStr "linkedin")] tina_profile =
  Ok [("provider", VStr "linkedin")] /\
  @addPhotos tina_engine [("provider", VStr "linkedin")] two_image_profile =
  Ok [("provider", VStr "linkedin");
      ("photos", VArr [VObj [("value", VStr "a")];
                       VObj [("value", VStr "c")]])].
Proof.
  split.
  - apply (proj1 (@photos_first_identifier_of_each tina_engine
                    [("provider", VStr "linkedin")] tina_profile eq_refl)).
    left. reflexivity.
  - exact (proj2 (@photos_first_identifier_of_each tina_engine
                    [("provider", VStr "linkedin")] two_image_profile eq_refl)
             _ _ eq_refl eq_refl).
Defined.

(** C7, as stated, fails: the specification's wording lists both
    identifiers of the first image element; the code lists the first
    identifier of each of the two elements. *)
Lemma photos_not_all_identifiers_of_first :
  @addPhotos tina_engine [] two_image_profile =
  Ok [("photos", VArr [VObj [("value", VStr "a")];
                       VObj [("value", VStr "c")]])] /\
  addPhotos_spec [] two_image_profile =
  [("photos", VArr [VObj [("value", VStr "a")];
                    VObj [("value", VStr "b")]])] /\
  @addPhotos tina_engine [] two_image_profile <>
  Ok (addPhotos_spec [] two_image_profile).
Proof.
  split; [reflexivity |]. split; [reflexivity |]. discriminate.
Qed.

(* ------------------------------------------------------------------ *)
(** *** C8 *)

Lemma skip_gate_witness :
  @_loadUserProfile tina_engine predicate_strategy (VStr "other") quiet_done =
  ([SkipPredicate [];
    SetAccessTokenName [VStr "oauth2_access_token"];
    HttpGet (VStr "profile-url") (VStr "other");
    HttpGet (VStr "email-url") (VStr "other")], Ok VUndef) /\
  @_loadUserProfile tina_engine skipping_strategy (VStr "tok123") quiet_done =
  quiet_done [VNull] /\
  @_loadUserProfile tina_engine
    (stub_strategy (SkipFunction 0 (returning (VBool true))) [] [])
    (VStr "tok123") quiet_done =
  ([SkipPredicate []], Ok VUndef) /\
  @_loadUserProfile tina_engine async_skipping_strategy (VStr "tok123")
    quiet_done =
  ([SkipPredicate [VStr "tok123"]], Ok VUndef) /\
  (exists ev : Event,
     trace (authenticate_loaded skipping_strategy (query_request "tok123")
              (VStr "tok123") VUndef [VNull]) =
     [VerifyCall None (VStr "tok123") VUndef VUndef; ev] /\
     is_sink ev = true) /\
  http_calls (trace (@authenticate tina_engine skipping_strategy
                       (query_request "tok123") VUndef)) = [].
Proof.
  pose proof (fun self => @skip_gate tina_engine self (query_request "tok123")
                            (VStr "tok123") VUndef quiet_done) as G.
  split; [| split; [| split; [| split; [| split]]]].
  - rewrite (proj1 (@skip_gate tina_engine predicate_strategy
                      (query_request "other") (VStr "other") VUndef
                      quiet_done) 1 token_predicate eq_refl);
      [reflexivity | repeat constructor].
  - apply (proj1 (proj2 (G skipping_strategy)) (VBool true)); reflexivity.
  - rewrite (proj1 (proj2 (proj2 (G (stub_strategy
               (SkipFunction 0 (returning (VBool true))) [] []))))
               0 (returning (VBool true)) (VBool true));
      first [reflexivity | repeat constructor].
  - rewrite (proj1 (proj2 (proj2 (proj2 (G async_skipping_strategy))))
               2 (answer (fun _ => [VNull; VBool true]))
               [VNull; VBool true]);
      first [reflexivity | repeat constructor].
  - apply (proj1 (proj2 (proj2 (proj2 (proj2 (G skipping_strategy)))))).
    apply answer_calls_back_once.
  - apply (proj2 (proj2 (proj2 (proj2 (proj2 (G skipping_strategy)))))
             (VBool true) VUndef); try reflexivity.
    apply answer_calls_back_once.
Defined.

(** C8, as stated, fails.  The synchronous predicate is called without the
    access token: a predicate that skips for the token at hand does not see
    it, and both GETs are issued.  And a skipped profile reaches the verify
    callback as [undefined], not as [null]. *)
Lemma skip_predicate_sees_no_token :
  token_predicate [AVal (VStr "tok123")] = ret (VBool true) /\
  trace (@authenticate tina_engine predicate_strategy
           (query_request "tok123") VUndef) =
  (SkipPredicate [] ::
   SetAccessTokenName [VStr "oauth2_access_token"] ::
   HttpGet (VStr "profile-url") (VStr "tok123") ::
   HttpGet (VStr "email-url") (VStr "tok123") ::
   skipn 4 (trace (@authenticate tina_engine predicate_strategy
                     (query_request "tok123") VUndef)))%list /\
  trace (@authenticate tina_engine skipping_strategy
           (query_request "tok123") VUndef) =
  [VerifyCall None (VStr "tok123") VUndef VUndef;
   SinkSuccess [the_user; VUndef]] /\
  trace (@authenticate tina_engine skipping_strategy
           (query_request "tok123") VUndef) <>
  [VerifyCall None (VStr "tok123") VUndef VNull;
   SinkSuccess [the_user; VUndef]].
Proof.
  split; [reflexivity |]. split; [reflexivity |]. split; [reflexivity |].
  discriminate.
Qed.

(* ------------------------------------------------------------------ *)
(** *** C9 *)

Lemma localized_name_lookup_witness :
  @getLocalizedName tina_engine (localized_name "Tina") = Ok (VStr "Tina") /\
  @getLocalizedName tina_engine unmapped_name = Ok VUndef /\
  @getLocalizedName tina_engine proto_name = Ok (VObj []).
Proof.
  split; [| split].
  - exact (proj1 (proj2 (@localized_name_lookup tina_engine
                           (localized_name "Tina")
                           "en" "US" eq_refl eq_refl eq_refl eq_refl))
             (VStr "Tina") eq_refl).
  - exact (proj1 (proj2 (proj2 (@localized_name_lookup tina_engine
                                  unmapped_name
                                  "en" "US" eq_refl eq_refl eq_refl eq_refl)))
             eq_refl eq_refl).
  - exact (proj2 (proj2 (proj2 (@localized_name_lookup tina_engine
                                  proto_name
                                  "_" "proto__" eq_refl eq_refl eq_refl
                                  eq_refl)))
             (VObj []) eq_refl eq_refl).
Defined.

(** A key that the mapping does not own but inherits is answered from the
    prototype chain, again without an error. *)
Example inherited_key_is_returned :
  own_field (VObj [("en_US", VStr "Tina")]) "__proto__" = None /\
  @getLocalizedName tina_engine proto_name = Ok (VObj []).
Proof. split; reflexivity. Qed.

(** A profile document whose names lack the key of their locale. *)
Example unmapped_names_normalize :
  exists fields,
    @build_profile
      (stub_engine [("profile-body",
                     VObj [("id", VStr "42");
                           ("firstName", unmapped_name);
                           ("lastName", unmapped_name)]);
                    ("email-body", tina_email)])
      (VStr "profile-body") (VStr "email-body") = Ok (VObj fields) /\
    lookup_field "displayName" fields = Some (VStr "undefined undefined").
Proof. eexists. split; reflexivity. Qed.

(** C9, as stated, fails: the mapping lacks the key [en_US], and the
    resolver returns [undefined] instead of raising an error. *)
Lemma missing_locale_key_is_no_error :
  lookup_field "en_US" [("fr_FR", VStr "Tina")] = None /\
  @getLocalizedName tina_engine unmapped_name = Ok VUndef /\
  ~ (exists e, @getLocalizedName tina_engine unmapped_name = Throw e).
Proof.
  split; [reflexivity |]. split; [reflexivity |].
  intros [e H]. discriminate H.
Qed.

(* ------------------------------------------------------------------ *)
(** *** C10 *)

Lemma extraction_dereferences_lazily_witness :
  extract_tokens body_only_request = Ok (VStr "a", VStr "r") /\
  @authenticate tina_engine tina_strategy access_only_request VUndef =
  ([], Throw (TypeError "refresh_token")) /\
  @authenticate tina_engine tina_strategy bare_request VUndef =
  ([], Throw (TypeError "access_token")) /\
  extract_tokens
    {| body := VUndef; query := query three_tier_request; headers := VUndef |} =
  Ok (VStr "q-at", VStr "q-rt") /\
  extract_tokens
    {| body := VUndef; query := query (query_request "tok123");
       headers := VUndef |} =
  Throw (TypeError "refresh_token") /\
  extract_tokens
    {| body := VUndef; query := VObj []; headers := VUndef |} =
  Throw (TypeError "access_token") /\
  exists accessToken refreshToken,
    extract_tokens three_tier_request = Ok (accessToken, refreshToken).
Proof.
  pose proof (@extraction_dereferences_lazily tina_engine tina_strategy) as L.
  split; [| split; [| split; [| split; [| split; [| split]]]]].
  - exact (proj1 (proj1 (L body_only_request VUndef) eq_refl)
             eq_refl eq_refl).
  - exact (proj2 (proj1 (proj2 (proj1 (L access_only_request VUndef) eq_refl))
                    eq_refl eq_refl)).
  - exact (proj2 (proj2 (proj2 (proj1 (L bare_request VUndef) eq_refl))
                    eq_refl)).
  - exact (proj1 (proj1 (proj2 (L
             {| body := VUndef; query := query three_tier_request;
                headers := VUndef |} VUndef)) eq_refl eq_refl)
             eq_refl eq_refl).
  - exact (proj1 (proj2 (proj1 (proj2 (L
             {| body := VUndef; query := query (query_request "tok123");
                headers := VUndef |} VUndef)) eq_refl eq_refl))
             eq_refl eq_refl).
  - exact (proj2 (proj2 (proj1 (proj2 (L
             {| body := VUndef; query := VObj []; headers := VUndef |}
             VUndef)) eq_refl eq_refl))
             eq_refl).
  - exact (proj2 (proj2 (L three_tier_request VUndef)) eq_refl eq_refl).
Defined.

(** C10, as stated, fails: a request that carries both tokens in the body
    and has neither query nor headers resolves its tokens from the body and
    reaches the sink. *)
Lemma body_tokens_need_no_query :
  truthy (from_body body_only_request "access_token") = true /\
  nullish (query body_only_request) = true /\
  nullish (headers body_only_request) = true /\
  extract_tokens body_only_request = Ok (VStr "a", VStr "r") /\
  sink_calls (trace (@authenticate tina_engine tina_strategy
                       body_only_request VUndef)) =
  [SinkSuccess [the_user; VUndef]] /\
  result (@authenticate tina_engine tina_strategy body_only_request VUndef) =
  Ok VUndef.
Proof. repeat split. Qed.

(* ================================================================== *)
(** ** The further properties on the fixtures *)
(* ================================================================== *)

Lemma quiet_done_returns : always_returns quiet_done.
Proof. intros args. now exists VUndef. Qed.

Lemma authorizationParams_state_only_witness :
  authorizationParams VUndef = Throw (TypeError "state") /\
  authorizationParams (VObj [("state", VStr "xyz"); ("scope", VStr "r_liteprofile")])
  = Ok (VObj [("state", VStr "xyz")]) /\
  authorizationParams (VObj [("state", VStr "")]) = Ok (VObj []).
Proof.
  split; [| split].
  - apply (proj1 (authorizationParams_state_only VUndef)). reflexivity.
  - apply (proj1 (proj2 (authorizationParams_state_only
             (VObj [("state", VStr "xyz"); ("scope", VStr "r_liteprofile")]))));
      reflexivity.
  - apply (proj2 (proj2 (authorizationParams_state_only
             (VObj [("state", VStr "")])))); reflexivity.
Defined.

Lemma constructor_options_defaults_witness :
  get_field (VObj (LinkedinTokenStrategy_options (Some caller_options)))
    "authorizationURL" = VStr "https://www.linkedin.com" /\
  get_field (VObj (LinkedinTokenStrategy_options (Some caller_options)))
    "tokenURL" = VStr "https://example.com/token" /\
  get_field (VObj (LinkedinTokenStrategy_options (Some caller_options)))
    "scopeSeparator" = VStr "," /\
  get_field (VObj (LinkedinTokenStrategy_options None)) "tokenURL" =
  VStr "https://www.linkedin.com/uas/oauth2/accessToken" /\
  lookup_field "clientID" (LinkedinTokenStrategy_options (Some caller_options))
  = Some (VStr "123-456-789").
Proof.
  pose proof (constructor_options_defaults (Some caller_options) "clientID")
    as (_ & A & B & _ & _ & C & F & _).
  pose proof (constructor_options_defaults None "clientID")
    as (_ & _ & _ & B' & _).
  split; [apply A; reflexivity |].
  split; [apply B; reflexivity |].
  split; [apply C; reflexivity |].
  split; [apply B'; reflexivity |].
  apply F. intros [H | [H | [H | []]]]; discriminate H.
Defined.

Lemma normalizer_writes_own_field_only_witness :
  lookup_field "provider"
    [("provider", VStr "linkedin");
     ("emails", VArr [VObj [("value", VStr "tina@example.com")]])] =
  lookup_field "provider" [("provider", VStr "linkedin")] /\
  lookup_field "provider"
    [("provider", VStr "linkedin");
     ("photos", VArr [VObj [("value", VStr "a")];
                      VObj [("value", VStr "c")]])] =
  lookup_field "provider" [("provider", VStr "linkedin")].
Proof.
  split.
  - apply (proj1 (@normalizer_writes_own_field_only tina_engine
                    [("provider", VStr "linkedin")] _ tina_email "provider"));
      [reflexivity | discriminate].
  - apply (proj2 (@normalizer_writes_own_field_only tina_engine
                    [("provider", VStr "linkedin")] _ two_image_profile
                    "provider"));
      [reflexivity | discriminate].
Defined.

Lemma addEmails_throws_on_malformed_witness :
  addEmails [] VNull = Throw (TypeError "elements") /\
  addEmails [] (VObj [("elements", VStr "none")]) = Throw (TypeError "reduce") /\
  addEmails [] null_entry_email = Throw (TypeError "handle~").
Proof.
  split; [| split].
  - apply (proj1 (addEmails_throws_on_malformed [] VNull)). reflexivity.
  - apply (proj1 (proj2 (addEmails_throws_on_malformed []
                           (VObj [("elements", VStr "none")]))));
      try reflexivity.
    intros l H. discriminate H.
  - apply (proj2 (proj2 (addEmails_throws_on_malformed [] null_entry_email))
             [VObj [("handle~", VObj [("emailAddress", VStr "a@example.com")])]]
             VNull
             [VObj [("handle~", VObj [("emailAddress", VStr "b@example.com")])]]);
      reflexivity.
Defined.

Lemma photos_present_but_empty_witness :
  @addPhotos tina_engine [("provider", VStr "linkedin")] blank_image_profile =
  Ok [("provider", VStr "linkedin"); ("photos", VArr [])].
Proof.
  apply (proj1 (@photos_present_but_empty tina_engine
                  [("provider", VStr "linkedin")] blank_image_profile
                  _ _ eq_refl eq_refl eq_refl)).
Defined.

Lemma build_profile_rejects_witness :
  @build_profile sparse_engine (VStr "garbled") (VStr "email-body") =
  Throw SyntaxError /\
  @build_profile sparse_engine (VStr "nameless-body") (VStr "garbled") =
  Throw SyntaxError /\
  @build_profile sparse_engine (VStr "null-body") (VStr "email-body") =
  Throw (TypeError "id") /\
  @build_profile sparse_engine (VStr "nameless-body") (VStr "email-body") =
  Throw (TypeError "localized") /\
  @build_profile sparse_engine (VStr "first-nameless-body") (VStr "email-body")
  = Throw (TypeError "localized").
Proof.
  pose proof (fun pb eb => @build_profile_rejects sparse_engine (VStr pb)
                             (VStr eb)) as R.
  split; [| split; [| split; [| split]]].
  - apply (proj1 (R "garbled" "email-body")). reflexivity.
  - apply (proj1 (proj2 (R "nameless-body" "garbled")) _ eq_refl eq_refl).
  - apply (proj1 (proj2 (proj2 (R "null-body" "email-body"))
                    _ _ eq_refl eq_refl)).
    reflexivity.
  - apply (proj1 (proj2 (proj2 (proj2 (R "nameless-body" "email-body"))
                           _ _ eq_refl eq_refl)));
      reflexivity.
  - apply (proj2 (proj2 (proj2 (proj2 (R "first-nameless-body" "email-body"))
                           _ _ eq_refl eq_refl))
             (VStr "Belcher"));
      reflexivity.
Defined.

Lemma build_profile_fields_witness :
  exists fields profileJson familyName givenName g f,
    VObj [("provider", VStr "linkedin"); ("id", VStr "42");
          ("name", VObj [("familyName", VStr "Belcher");
                         ("givenName", VStr "Tina")]);
          ("displayName", VStr "Tina Belcher");
          ("emails", VArr [VObj [("value", VStr "tina@example.com")]]);
          ("_raw", VStr "profile-body");
          ("_json", tina_profile)] = VObj fields /\
    @JSON_parse tina_engine (VStr "profile-body") = Some profileJson /\
    @getLocalizedName tina_engine (get_field profileJson "lastName") =
    Ok familyName /\
    @getLocalizedName tina_engine (get_field profileJson "firstName") =
    Ok givenName /\
    @str_of tina_engine givenName = Ok g /\
    @str_of tina_engine familyName = Ok f /\
    lookup_field "provider" fields = Some (VStr "linkedin") /\
    lookup_field "id" fields = Some (get_field profileJson "id") /\
    lookup_field "name" fields =
    Some (VObj [("familyName", familyName); ("givenName", givenName)]) /\
    lookup_field "displayName" fields = Some (VStr (g ++ " " ++ f)) /\
    lookup_field "_raw" fields = Some (VStr "profile-body") /\
    lookup_field "_json" fields = Some profileJson.
Proof.
  apply (@build_profile_fields tina_engine (VStr "profile-body")
           (VStr "email-body")).
  reflexivity.
Defined.

Lemma userProfile_calls_done_once_witness :
  exists args,
    (trace (@userProfile tina_engine failing_strategy (VStr "tok123")
              quiet_done) =
     ([SetAccessTokenName [VStr "oauth2_access_token"];
       HttpGet (profileUrl failing_strategy) (VStr "tok123")]
      ++ trace (quiet_done args))%list \/
     trace (@userProfile tina_engine failing_strategy (VStr "tok123")
              quiet_done) =
     ([SetAccessTokenName [VStr "oauth2_access_token"];
       HttpGet (profileUrl failing_strategy) (VStr "tok123");
       HttpGet (emailUrl failing_strategy) (VStr "tok123")]
      ++ trace (quiet_done args))%list) /\
    result (@userProfile tina_engine failing_strategy (VStr "tok123")
              quiet_done) = Ok VUndef.
Proof.
  apply (@userProfile_calls_done_once tina_engine failing_strategy).
  - apply answer_calls_back_once.
  - apply returning_returns_value.
  - exact quiet_done_returns.
Defined.

Lemma authenticate_run_shape_witness :
  exists accessToken refreshToken,
    extract_tokens (query_request "tok123") = Ok (accessToken, refreshToken) /\
    (trace (@authenticate tina_engine tina_strategy (query_request "tok123")
              VUndef) = [SinkFail []] \/
     exists g f,
       gate_prefix accessToken g /\
       fetch_prefix tina_strategy accessToken f /\
       ((exists err,
           truthy err = true /\
           trace (@authenticate tina_engine tina_strategy
                    (query_request "tok123") VUndef) =
           (g ++ f ++ [SinkFail [err]])%list) \/
        (exists profile reply,
           (forall cb,
              _verify tina_strategy
                (verify_arguments tina_strategy (query_request "tok123")
                   accessToken refreshToken profile cb) = cb reply) /\
           trace (@authenticate tina_engine tina_strategy
                    (query_request "tok123") VUndef) =
           (g ++ f ++
            [VerifyCall (passed_request tina_strategy (query_request "tok123"))
               accessToken refreshToken profile; verdict reply])%list))).
Proof.
  apply (@authenticate_run_shape tina_engine tina_strategy
           (query_request "tok123") VUndef);
    [exact tina_strategy_well_behaved | reflexivity | reflexivity].
Defined.

Lemma authenticate_loaded_profile_run_witness :
  @build_profile tina_engine (VStr "profile-body") (VStr "email-body") =
  Ok tina_normalized_profile /\
  @authenticate tina_engine tina_strategy (query_request "tok123") VUndef =
  ([SetAccessTokenName [VStr "oauth2_access_token"];
    HttpGet (VStr "profile-url") (VStr "tok123");
    HttpGet (VStr "email-url") (VStr "tok123");
    VerifyCall None (VStr "tok123") VUndef tina_normalized_profile;
    SinkSuccess [the_user; VUndef]], Ok VUndef).
Proof.
  split; [reflexivity |].
  apply (@authenticate_loaded_profile_run tina_engine tina_strategy
           (query_request "tok123") VUndef (VStr "tok123") VUndef
           (VBool false) tina_normalized_profile
           [VNull; VStr "profile-body"] [VNull; VStr "email-body"]
           [VNull; the_user]);
    first [reflexivity | apply returning_returns_value].
Defined.

Lemma userProfile_catch_witness :
  @userProfile tina_engine garbled_strategy (VStr "tok123") self_fail =
  ([SetAccessTokenName [VStr "oauth2_access_token"];
    HttpGet (VStr "profile-url") (VStr "tok123");
    HttpGet (VStr "email-url") (VStr "tok123");
    SinkFail [SyntaxError]], Ok VUndef) /\
  @userProfile tina_engine tina_strategy (VStr "tok123")
    (fun args => if truthy (arg 0 args) then self_fail args else throwing [])
  = ([SetAccessTokenName [VStr "oauth2_access_token"];
      HttpGet (VStr "profile-url") (VStr "tok123");
      HttpGet (VStr "email-url") (VStr "tok123");
      SinkFail [boom]], Ok VUndef).
Proof.
  split.
  - apply (proj1 (@userProfile_catch tina_engine garbled_strategy
                    (VStr "tok123") self_fail
                    [VNull; VStr "garbled"] [VNull; VStr "email-body"]
                    (returning_returns_value VUndef)
                    (fun cb => eq_refl) eq_refl (fun cb => eq_refl) eq_refl)
             SyntaxError).
    reflexivity.
  - apply (proj2 (@userProfile_catch tina_engine tina_strategy
                    (VStr "tok123")
                    (fun args =>
                       if truthy (arg 0 args) then self_fail args
                       else throwing [])
                    [VNull; VStr "profile-body"] [VNull; VStr "email-body"]
                    (returning_returns_value VUndef)
                    (fun cb => eq_refl) eq_refl (fun cb => eq_refl) eq_refl)
             tina_normalized_profile [] boom);
      reflexivity.
Defined.

Lemma verify_exception_after_load_witness :
  @authenticate tina_engine (with_verify throwing tina_strategy)
    (query_request "tok123") VUndef =
  ([SetAccessTokenName [VStr "oauth2_access_token"];
    HttpGet (VStr "profile-url") (VStr "tok123");
    HttpGet (VStr "email-url") (VStr "tok123");
    VerifyCall None (VStr "tok123") VUndef tina_normalized_profile;
    SinkFail [boom]], Ok VUndef).
Proof.
  apply (@verify_exception_after_load tina_engine
           (with_verify throwing tina_strategy)
           (query_request "tok123") VUndef (VStr "tok123") VUndef
           (VBool false) tina_normalized_profile boom
           [VNull; VStr "profile-body"] [VNull; VStr "email-body"] []);
    first [reflexivity | apply returning_returns_value].
Defined.


Lemma async_gate_error_run_witness :
  @authenticate tina_engine gate_error_strategy (query_request "tok123")
    VUndef =
  ([SkipPredicate [VStr "tok123"]; SinkFail [VStr "gate down"]], Ok VUndef).
Proof.
  apply (@async_gate_error_run tina_engine gate_error_strategy
           (query_request "tok123") VUndef (VStr "tok123") VUndef
           2 (answer (fun _ => [VStr "gate down"])) [VStr "gate down"]);
    first [reflexivity | repeat constructor].
Defined.

Lemma load_failure_run_witness :
  @authenticate tina_engine failing_strategy (query_request "tok123") VUndef =
  ([SetAccessTokenName [VStr "oauth2_access_token"];
    HttpGet (VStr "profile-url") (VStr "tok123");
    SinkFail [InternalOAuthError "failed to fetch user profile"
                transport_failure]], Ok VUndef) /\
  @authenticate tina_engine email_failing_strategy (query_request "tok123")
    VUndef =
  ([SetAccessTokenName [VStr "oauth2_access_token"];
    HttpGet (VStr "profile-url") (VStr "tok123");
    HttpGet (VStr "email-url") (VStr "tok123");
    SinkFail [InternalOAuthError "failed to fetch user email"
                transport_failure]], Ok VUndef) /\
  @authenticate tina_engine garbled_strategy (query_request "tok123") VUndef =
  ([SetAccessTokenName [VStr "oauth2_access_token"];
    HttpGet (VStr "profile-url") (VStr "tok123");
    HttpGet (VStr "email-url") (VStr "tok123");
    SinkFail [SyntaxError]], Ok VUndef).
Proof.
  split; [| split].
  - apply (proj1 (@load_failure_run tina_engine failing_strategy
                    (query_request "tok123") VUndef (VStr "tok123") VUndef
                    (VBool false) [transport_failure]
                    eq_refl eq_refl eq_refl eq_refl eq_refl
                    (returning_returns_value VUndef) (fun cb => eq_refl))).
    reflexivity.
  - apply (proj1 (proj2 (@load_failure_run tina_engine email_failing_strategy
                    (query_request "tok123") VUndef (VStr "tok123") VUndef
                    (VBool false) [VNull; VStr "profile-body"]
                    eq_refl eq_refl eq_refl eq_refl eq_refl
                    (returning_returns_value VUndef) (fun cb => eq_refl))
                    [transport_failure] eq_refl (fun cb => eq_refl))).
    reflexivity.
  - apply (proj2 (proj2 (@load_failure_run tina_engine garbled_strategy
                    (query_request "tok123") VUndef (VStr "tok123") VUndef
                    (VBool false) [VNull; VStr "garbled"]
                    eq_refl eq_refl eq_refl eq_refl eq_refl
                    (returning_returns_value VUndef) (fun cb => eq_refl))
                    [VNull; VStr "email-body"] eq_refl (fun cb => eq_refl))
             SyntaxError);
      reflexivity.
Defined.
